(** * EZVIZ HP7 integration: a shallow embedding of the polling, alarm-pulse,
    status-normalising and unlock-dispatch code, with the properties of its
    specification.

    Source files embedded here:
    - [custom_components/ezviz_hp7/binary_sensor.py]
    - [custom_components/ezviz_hp7/api.py]
    - [custom_components/ezviz_hp7/coordinator.py]
    - [custom_components/ezviz_hp7/__init__.py] *)

From Stdlib Require Import ZArith Floats.SpecFloat Ascii String.
From stdpp Require Import gmap strings list fin_maps.

#[local] Set Warnings "-register-all".
#[local] Open Scope Z_scope.

(** ** Python values

    The status payload is decoded JSON, so the values that reach the code are
    [None], booleans, integers, floats, strings, lists and dictionaries with
    string keys.  A Python [str] is represented by its UTF-8 encoding, which is
    injective, so [==] on strings is equality of the encodings. *)

Inductive pyval : Type :=
  | PNone
  | PBool (b : bool)
  | PInt (z : Z)
  | PFloat (f : spec_float)
  | PStr (s : string)
  | PList (l : list pyval)
  | PDict (d : gmap string pyval).

(** The numeric tower used by [==]: [bool] is a subclass of [int], and an
    [int] is compared with a [float] exactly. *)
Inductive pynum : Type :=
  | NInt (z : Z)
  | NFloat (f : spec_float).

Definition as_num (v : pyval) : option pynum :=
  match v with
  | PBool b => Some (NInt (if b then 1 else 0))
  | PInt z => Some (NInt z)
  | PFloat f => Some (NFloat f)
  | _ => None
  end.

Definition float_eq_int (f : spec_float) (z : Z) : bool :=
  match f with
  | S754_zero _ => z =? 0
  | S754_finite sg m e =>
      let sm := if sg then Z.neg m else Z.pos m in
      if 0 <=? e then sm * 2 ^ e =? z else sm =? z * 2 ^ (- e)
  | S754_infinity _ | S754_nan => false
  end.

Definition num_eq (a b : pynum) : bool :=
  match a, b with
  | NInt x, NInt y => x =? y
  | NInt x, NFloat g => float_eq_int g x
  | NFloat f, NInt y => float_eq_int f y
  | NFloat f, NFloat g => SFeqb f g
  end.

(** [a == b] on decoded values. *)
Fixpoint py_eq (a b : pyval) {struct a} : bool :=
  let num_case (x : pynum) : bool :=
    match as_num b with
    | Some y => num_eq x y
    | None => false
    end in
  match a, b with
  | PNone, PNone => true
  | PBool t, _ => num_case (NInt (if t then 1 else 0))
  | PInt z, _ => num_case (NInt z)
  | PFloat f, _ => num_case (NFloat f)
  | PStr s, PStr s' => bool_decide (s = s')
  | PList l, PList l' =>
      (fix go (l l' : list pyval) : bool :=
         match l, l' with
         | [], [] => true
         | x :: l, y :: l' => py_eq x y && go l l'
         | _, _ => false
         end) l l'
  | PDict d, PDict d' =>
      bool_decide (size d = size d') &&
      map_fold (fun k v acc =>
                  acc && match d' !! k with
                         | Some v' => py_eq v v'
                         | None => false
                         end) true d
  | _, _ => false
  end.

(** [a != b]. *)
Definition py_ne (a b : pyval) : bool := negb (py_eq a b).

(** [v is None]. *)
Definition is_none (v : pyval) : bool :=
  match v with PNone => true | _ => false end.

(** Truth value of [v], as taken by [not v], [a or b] and [if v:]. *)
Definition py_truthy (v : pyval) : bool :=
  match v with
  | PNone => false
  | PBool b => b
  | PInt z => negb (z =? 0)
  | PFloat f => negb (float_eq_int f 0)
  | PStr s => negb (bool_decide (s = EmptyString))
  | PList l => match l with [] => false | _ => true end
  | PDict d => negb (bool_decide (d = ∅))
  end.

(** [a or b]. *)
Definition py_or (a b : pyval) : pyval := if py_truthy a then a else b.

(** [d.get(k)] on a dictionary: [None] when the key is absent. *)
Definition dict_get (d : gmap string pyval) (k : string) : pyval :=
  default PNone (d !! k).

(** [x in l] for a list [l] of string literals: only a [str] equals a
    [str]. *)
Definition py_in_strs (x : pyval) (l : list string) : bool :=
  match x with
  | PStr s => bool_decide (s ∈ l)
  | _ => false
  end.

(** ** [str.strip] and [str.lower]

    [str.strip()] removes the characters for which [str.isspace] holds; their
    code points are U+0009..U+000D, U+001C..U+0020, U+0085, U+00A0, U+1680,
    U+2000..U+200A, U+2028, U+2029, U+202F, U+205F and U+3000.  They are
    matched here in their UTF-8 form, one, two or three bytes long. *)

Definition space1 (a : N) : bool :=
  ((9 <=? a) && (a <=? 13) || (28 <=? a) && (a <=? 32))%N.

Definition space2 (a b : N) : bool :=
  ((a =? 194) && ((b =? 133) || (b =? 160)))%N.

Definition space3 (a b c : N) : bool :=
  ((a =? 225) && (b =? 154) && (c =? 128)
   || (a =? 226) && (b =? 128)
      && ((128 <=? c) && (c <=? 138) || (c =? 168) || (c =? 169) || (c =? 175))
   || (a =? 226) && (b =? 129) && (c =? 159)
   || (a =? 227) && (b =? 128) && (c =? 128))%N.

(** Drop the white space at the head of a byte sequence; [s2] and [s3]
    recognise the two- and three-byte characters in reading order. *)
Fixpoint strip_head (s2 : N → N → bool) (s3 : N → N → N → bool)
    (l : list N) : list N :=
  match l with
  | [] => []
  | a :: r =>
      if space1 a then strip_head s2 s3 r
      else match r with
           | [] => l
           | b :: r2 =>
               if s2 a b then strip_head s2 s3 r2
               else match r2 with
                    | [] => l
                    | c :: r3 => if s3 a b c then strip_head s2 s3 r3 else l
                    end
           end
  end.

Definition bytes_of (s : string) : list N :=
  map N_of_ascii (list_ascii_of_string s).

Definition str_of (l : list N) : string :=
  string_of_list_ascii (map ascii_of_N l).

(** [s.strip()]. *)
Definition py_strip (s : string) : string :=
  let front := strip_head space2 space3 (bytes_of s) in
  let back :=
    strip_head (fun a b => space2 b a) (fun a b c => space3 c b a) (rev front) in
  str_of (rev back).

(** [s.lower()] on the ASCII letters.  A character outside ASCII is kept as it
    is: [str.lower] sends it to text that still holds a character outside
    ASCII, or to [k] (U+212A), and so never into one of the ASCII literals
    compared with in [_to_bool]. *)
Definition lower_byte (a : N) : N :=
  if ((65 <=? a) && (a <=? 90))%N then (a + 32)%N else a.

Definition py_lower (s : string) : string :=
  str_of (map lower_byte (bytes_of s)).

(** ** binary_sensor.py *)

Definition ALARM_FIELD : string := "alarm_name".
Definition ALARM_TIME_FIELD : string := "last_alarm_time".
Definition PULSE_SECONDS : Z := 3.

Inductive BinarySensorDeviceClass : Type :=
  | MOTION.

(** Simple binary sensors mapped directly to coordinator data keys. *)
Definition SIMPLE_MAP : list (string * string * BinarySensorDeviceClass) :=
  [ ("Motion_Trigger", "motion_trigger", MOTION) ]%string.

(** Alarm sensors: match values, translation key, device class, icon. *)
Definition ALARM_MAP
  : list (list string * string * option BinarySensorDeviceClass * string) :=
  [ (["Smart Detection Alarm"], "smart_detection_alarm", None, "mdi:run");
    (["Intelligent Detection Alarm"], "intelligent_detection_alarm", None,
     "mdi:account-search");
    (["Your doorbell is ringing"], "doorbell_ringing", None, "mdi:doorbell");
    (["EZVIZ app open the gate"; "Monitor open the gate"], "gate_open", None,
     "mdi:gate-open");
    (["EZVIZ app unlock the lock"; "Monitor unlock the lock"], "unlock_lock",
     None, "mdi:lock-open-variant") ]%string.

Definition match_values_of
    (e : list string * string * option BinarySensorDeviceClass * string)
  : list string := e.1.1.1.

Definition TRUE_WORDS : list string := ["1"; "true"; "on"; "yes"; "y"]%string.

(** [_to_bool(value)]. *)
Definition _to_bool (value : pyval) : bool :=
  match value with
  | PBool b => b
  | PNone => false
  | PInt z => negb (z =? 0)
  | PFloat f => negb (float_eq_int f 0)
  | PStr s => bool_decide (py_lower (py_strip s) ∈ TRUE_WORDS)
  | PList _ | PDict _ => false
  end.

(** [coordinator.data or {}]: the coordinator holds [None] before its first
    refresh. *)
Definition data_or_empty (data : option (gmap string pyval))
  : gmap string pyval := default ∅ data.

(** [Hp7BinarySimple.is_on], for the entity built from [key]. *)
Definition Hp7BinarySimple_is_on (key : string)
    (coordinator_data : option (gmap string pyval)) : bool :=
  let data := data_or_empty coordinator_data in
  let val := dict_get data key in
  _to_bool val.

(** State of one [Hp7BinaryAlarm] entity.  Instants are microseconds on the
    UTC clock, the resolution of [datetime]; [_off_unsub] holds the instant at
    which the pending switch-off callback is due. *)
Record Hp7BinaryAlarm : Type := mkAlarm {
  _match_values : list string;
  _last_trigger : option Z;
  _prev_alarm_time : pyval;
  _off_unsub : option Z
}.

(** [Hp7BinaryAlarm.__init__]. *)
Definition Hp7BinaryAlarm_init (match_values : list string) : Hp7BinaryAlarm :=
  {| _match_values := match_values;
     _last_trigger := None;
     _prev_alarm_time := PNone;
     _off_unsub := None |}.

Definition MICROS : Z := 1000000.

(** [Hp7BinaryAlarm.is_on], read when the clock shows [now].
    [total_seconds()] divides the microseconds of the difference by [10**6],
    and [delta < PULSE_SECONDS] compares the quotient with an integer, which
    is the comparison of the microseconds with [PULSE_SECONDS * 10**6]. *)
Definition Hp7BinaryAlarm_is_on (self : Hp7BinaryAlarm) (now : Z) : bool :=
  match _last_trigger self with
  | None => false
  | Some last => bool_decide (now - last < PULSE_SECONDS * MICROS)
  end.

(** [Hp7BinaryAlarm._schedule_state_update]: a pending callback is cancelled
    and a new one is set [PULSE_SECONDS] later. *)
Definition _schedule_state_update (self : Hp7BinaryAlarm) (now : Z)
  : Hp7BinaryAlarm :=
  {| _match_values := _match_values self;
     _last_trigger := _last_trigger self;
     _prev_alarm_time := _prev_alarm_time self;
     _off_unsub := Some (now + PULSE_SECONDS * MICROS) |}.

(** The callback [_cb] of [_schedule_state_update]. *)
Definition _cb (self : Hp7BinaryAlarm) : Hp7BinaryAlarm :=
  {| _match_values := _match_values self;
     _last_trigger := _last_trigger self;
     _prev_alarm_time := _prev_alarm_time self;
     _off_unsub := None |}.

(** The condition of [_handle_coordinator_update]. *)
Definition alarm_condition (self : Hp7BinaryAlarm)
    (coordinator_data : option (gmap string pyval)) : bool :=
  let data := data_or_empty coordinator_data in
  let current_alarm := dict_get data ALARM_FIELD in
  let current_alarm_time := dict_get data ALARM_TIME_FIELD in
  py_in_strs current_alarm (_match_values self)
  && negb (is_none current_alarm_time)
  && py_ne current_alarm_time (_prev_alarm_time self).

(** [Hp7BinaryAlarm._handle_coordinator_update], run when the clock shows
    [now]. *)
Definition _handle_coordinator_update (self : Hp7BinaryAlarm) (now : Z)
    (coordinator_data : option (gmap string pyval)) : Hp7BinaryAlarm :=
  let data := data_or_empty coordinator_data in
  let current_alarm_time := dict_get data ALARM_TIME_FIELD in
  if alarm_condition self coordinator_data then
    _schedule_state_update
      {| _match_values := _match_values self;
         _last_trigger := Some now;
         _prev_alarm_time := current_alarm_time;
         _off_unsub := _off_unsub self |} now
  else self.

(** What happens to an alarm sensor: the coordinator delivers a snapshot
    while the clock shows [now], or the pending switch-off callback runs. *)
Inductive Event : Type :=
  | CoordinatorUpdate (now : Z) (coordinator_data : option (gmap string pyval))
  | SwitchOffDue.

Definition handle_event (self : Hp7BinaryAlarm) (ev : Event) : Hp7BinaryAlarm :=
  match ev with
  | CoordinatorUpdate now d => _handle_coordinator_update self now d
  | SwitchOffDue => _cb self
  end.

(** A sensor taken through a sequence of events, oldest first. *)
Fixpoint deliver (self : Hp7BinaryAlarm) (events : list Event)
  : Hp7BinaryAlarm :=
  match events with
  | [] => self
  | ev :: rest => deliver (handle_event self ev) rest
  end.

(** The entities of [async_setup_entry]: one alarm sensor per [ALARM_MAP]
    entry. *)
Definition alarm_entities : list Hp7BinaryAlarm :=
  map (fun e => Hp7BinaryAlarm_init (match_values_of e)) ALARM_MAP.

(** The condition the specification words give for a pulse: the alarm name is
    in the match set and the alarm time differs from the consumed one. *)
Definition spec_alarm_condition (self : Hp7BinaryAlarm)
    (coordinator_data : option (gmap string pyval)) : bool :=
  let data := data_or_empty coordinator_data in
  py_in_strs (dict_get data ALARM_FIELD) (_match_values self)
  && py_ne (dict_get data ALARM_TIME_FIELD) (_prev_alarm_time self).

(** ** Exceptions and results

    Each constructor stands for a class with its subclasses; [OtherError] is
    any other class derived from [Exception] (a network or protocol error of
    the device client, for instance). *)

Inductive exc : Type :=
  | KeyError
  | AttributeError
  | ValueError
  | RuntimeError
  | ConfigEntryNotReady
  | OtherError (cls : string).

Inductive result (A : Type) : Type :=
  | Ok (a : A)
  | Raise (e : exc).

Arguments Ok {A} a.
Arguments Raise {A} e.

Definition rbind {A B} (r : result A) (k : A → result B) : result B :=
  match r with
  | Ok a => k a
  | Raise e => Raise e
  end.

Notation "'let?' x ':=' r 'in' k" := (rbind r (fun x => k))
  (at level 10, x name, r at level 100, k at level 200).

(** [obj.get(k, dflt)]: an object that is not a dictionary has no [get]. *)
Definition py_get (obj : pyval) (k : string) (dflt : pyval) : result pyval :=
  match obj with
  | PDict d => Ok (default dflt (d !! k))
  | _ => Raise AttributeError
  end.

(** [d[k]] on a dictionary of strings. *)
Definition py_getitem (d : gmap string string) (k : string) : result string :=
  match d !! k with
  | Some v => Ok v
  | None => Raise KeyError
  end.

(** ** api.py *)

Definition DEFAULT_DOOR_LOCK_NO : Z := 2.
Definition DEFAULT_GATE_LOCK_NO : Z := 1.

Definition REGION_URLS : gmap string string :=
  list_to_map
    [ ("eu", "apiieu.ezvizlife.com");
      ("us", "apiisa.ezvizlife.com");
      ("cn", "apiicn.ezvizlife.com");
      ("as", "apiias.ezvizlife.com");
      ("sa", "apiisa.ezvizlife.com");
      ("ru", "apirus.ezvizru.com") ]%string.

(** The client object of [pylocalapi.client]: what it was built from. *)
Record EzvizClient : Type := mkClient {
  account : string;
  password : option string;
  url : string;
  token : option (gmap string pyval)
}.

Record Hp7Api : Type := mkApi {
  _username : string;
  _password : option string;
  _region : string;
  _token : option (gmap string pyval);
  _client : option EzvizClient;
  _url : string;
  supports_door : bool;
  supports_gate : bool
}.

(** [Hp7Api.__init__]. *)
Definition Hp7Api_init (username : string) (password : option string)
    (region : string) (token : option (gmap string pyval)) : result Hp7Api :=
  let? eu := py_getitem REGION_URLS "eu" in
  Ok {| _username := username;
        _password := password;
        _region := region;
        _token := token;
        _client := None;
        _url := default eu (REGION_URLS !! region);
        supports_door := true;
        supports_gate := true |}.

Definition set_client (c : option EzvizClient) (a : Hp7Api) : Hp7Api :=
  {| _username := _username a; _password := _password a;
     _region := _region a; _token := _token a; _client := c;
     _url := _url a; supports_door := supports_door a;
     supports_gate := supports_gate a |}.

Definition set_token (t : option (gmap string pyval)) (a : Hp7Api) : Hp7Api :=
  {| _username := _username a; _password := _password a;
     _region := _region a; _token := t; _client := _client a;
     _url := _url a; supports_door := supports_door a;
     supports_gate := supports_gate a |}.

Definition set_supports (door gate : bool) (a : Hp7Api) : Hp7Api :=
  {| _username := _username a; _password := _password a;
     _region := _region a; _token := _token a; _client := _client a;
     _url := _url a; supports_door := door; supports_gate := gate |}.

(** [not self._token]: [None] and the empty dictionary are false. *)
Definition token_falsy (t : option (gmap string pyval)) : bool :=
  match t with
  | None => true
  | Some d => bool_decide (d = ∅)
  end.

(** The calls the integration makes on the device client. *)
Inductive Call : Type :=
  | CallNew (c : EzvizClient)
  | CallLogin
  | CallDeviceInfos (serial : string)
  | CallRemoteUnlock (serial : string) (user_id : pyval) (lock_no : Z)
  | CallStatus (serial : string)
  | CallLogout.

(** The device client of the package [pylocalapi], which is not among the
    sources, and the cloud service behind it: each call reads and changes the
    state [W] of that outside world and returns or raises. *)
Record DeviceService (W : Type) : Type := mkService {
  svc_new : EzvizClient → W → result unit * W;
  svc_login : EzvizClient → W → result (option (gmap string pyval)) * W;
  svc_get_device_infos : EzvizClient → string → W → result pyval * W;
  svc_remote_unlock : EzvizClient → string → pyval → Z → W → result unit * W;
  svc_status : EzvizClient → string → W → result pyval * W;
  svc_logout : EzvizClient → W → result unit * W
}.

Arguments svc_new {W} _ _ _.
Arguments svc_login {W} _ _ _.
Arguments svc_get_device_infos {W} _ _ _ _.
Arguments svc_remote_unlock {W} _ _ _ _ _ _.
Arguments svc_status {W} _ _ _ _.
Arguments svc_logout {W} _ _ _.

(** What a method of [Hp7Api] runs on: the object itself, the outside world,
    and the client calls made so far, oldest first. *)
Record St (W : Type) : Type := mkSt {
  self : Hp7Api;
  world : W;
  calls : list Call
}.

Arguments mkSt {W} _ _ _.
Arguments self {W} _.
Arguments world {W} _.
Arguments calls {W} _.

Definition M (W A : Type) : Type := St W → result A * St W.

Definition ret {W A} (a : A) : M W A := fun st => (Ok a, st).

Definition raise {W A} (e : exc) : M W A := fun st => (Raise e, st).

Definition bind {W A B} (m : M W A) (k : A → M W B) : M W B :=
  fun st =>
    match m st with
    | (Ok a, st') => k a st'
    | (Raise e, st') => (Raise e, st')
    end.

Notation "'let*' x ':=' m 'in' k" := (bind m (fun x => k))
  (at level 10, x name, m at level 100, k at level 200).
Notation "m '>>' k" := (bind m (fun _ => k))
  (at level 90, right associativity).

(** [try: m except <classes of catches> as exc: handler exc]. *)
Definition try_except {W A} (m : M W A) (catches : exc → bool)
    (handler : exc → M W A) : M W A :=
  fun st =>
    match m st with
    | (Ok a, st') => (Ok a, st')
    | (Raise e, st') => if catches e then handler e st' else (Raise e, st')
    end.

Definition get_self {W} : M W Hp7Api := fun st => (Ok (self st), st).

Definition modify_self {W} (f : Hp7Api → Hp7Api) : M W unit :=
  fun st => (Ok tt, mkSt (f (self st)) (world st) (calls st)).

(** One call on the device client, appended to the record of calls. *)
Definition call {W A} (c : Call) (f : W → result A * W) : M W A :=
  fun st =>
    let '(r, w') := f (world st) in
    (r, mkSt (self st) w' (calls st ++ [c])).

(** [except Exception]. *)
Definition any_exception (e : exc) : bool := true.

(** [except (ValueError, KeyError)]. *)
Definition value_or_key_error (e : exc) : bool :=
  match e with
  | ValueError | KeyError => true
  | _ => false
  end.

(** [except (KeyError, AttributeError, ValueError)]. *)
Definition key_attribute_value_error (e : exc) : bool :=
  match e with
  | KeyError | AttributeError | ValueError => true
  | _ => false
  end.

Section Methods.
Context {W : Type} (svc : DeviceService W).

(** [Hp7Api._login_and_store_token]. *)
Definition _login_and_store_token : M W unit :=
  let* a := get_self in
  match _client a with
  | None => raise RuntimeError
  | Some c =>
      try_except
        (let* t := call CallLogin (svc_login svc c) in
         modify_self (set_token t))
        value_or_key_error
        (fun _ => raise ValueError)
  end.

(** [Hp7Api.ensure_client]. *)
Definition ensure_client : M W unit :=
  let* a := get_self in
  match _client a with
  | Some _ => ret tt
  | None =>
      try_except
        (let c := {| account := _username a; password := _password a;
                     url := _url a; token := _token a |} in
         call (CallNew c) (svc_new svc c) >>
         modify_self (set_client (Some c)) >>
         if token_falsy (_token a) then _login_and_store_token else ret tt)
        any_exception
        (fun _ => raise RuntimeError)
  end.

(** [Hp7Api.login]. *)
Definition login : M W bool :=
  ensure_client >> ret true.

(** [Hp7Api.detect_capabilities]. *)
Definition detect_capabilities (serial : string) : M W unit :=
  ensure_client >>
  try_except
    (let* a := get_self in
     match _client a with
     | Some c =>
         let* infos :=
           call (CallDeviceInfos serial) (svc_get_device_infos svc c serial) in
         let* dev := (fun st => (py_get infos serial (PDict ∅), st)) in
         ret tt
     | None => ret tt
     end)
    key_attribute_value_error
    (fun _ => ret tt) >>
  modify_self (set_supports true true).

(** [Hp7Api.close]. *)
Definition close : M W unit :=
  let* a := get_self in
  match _client a with
  | Some c =>
      fun st =>
        let '(_, st') :=
          try_except (call CallLogout (svc_logout svc c)) any_exception
            (fun _ => ret tt) st in
        modify_self (set_client None) st'
  | None => ret tt
  end.

(** [self._token.get("username") or self._username]. *)
Definition unlock_user_id (a : Hp7Api) (tok : gmap string pyval) : pyval :=
  py_or (dict_get tok "username") (PStr (_username a)).

(** [Hp7Api._try_unlock]. *)
Definition _try_unlock (serial : string) (lock_no : Z) : M W bool :=
  ensure_client >>
  let* a := get_self in
  match _token a, _client a with
  | Some tok, Some c =>
      if token_falsy (Some tok) then ret false
      else
        let user_id := unlock_user_id a tok in
        try_except
          (call (CallRemoteUnlock serial user_id lock_no)
             (svc_remote_unlock svc c serial user_id lock_no) >>
           ret true)
          any_exception
          (fun _ => ret false)
  | _, _ => ret false
  end.

(** [a or b] on two attempts: the second runs only when the first returned
    false. *)
Definition or_else (m1 m2 : M W bool) : M W bool :=
  let* b := m1 in
  if b then ret true else m2.

(** [Hp7Api.unlock_door]. *)
Definition unlock_door (serial : string) : M W bool :=
  or_else (_try_unlock serial DEFAULT_DOOR_LOCK_NO)
          (_try_unlock serial DEFAULT_GATE_LOCK_NO).

(** [Hp7Api.unlock_gate]. *)
Definition unlock_gate (serial : string) : M W bool :=
  or_else (_try_unlock serial DEFAULT_GATE_LOCK_NO)
          (_try_unlock serial DEFAULT_DOOR_LOCK_NO).

(** The body of the [try] of [get_status] after the status was fetched:
    the dictionary the method returns, built field by field. *)
Definition normalize_status (cam_status : pyval)
  : result (gmap string pyval) :=
  let? wifi_info := py_get cam_status "WIFI" (PDict ∅) in
  let? name := py_get cam_status "name" PNone in
  let? version := py_get cam_status "version" PNone in
  let? upgrade_available := py_get cam_status "upgrade_available" PNone in
  let? status := py_get cam_status "status" PNone in
  let? wan_ip := py_get cam_status "wan_ip" PNone in
  let? pir_status := py_get cam_status "PIR_Status" PNone in
  let? motion := py_get cam_status "Motion_Trigger" PNone in
  let? seconds_last_trigger :=
    py_get cam_status "Seconds_Last_Trigger" PNone in
  let? last_alarm_time := py_get cam_status "last_alarm_time" PNone in
  let? last_alarm_pic := py_get cam_status "last_alarm_pic" PNone in
  let? alarm_name := py_get cam_status "last_alarm_type_name" PNone in
  let? ssid := py_get wifi_info "ssid" PNone in
  let? signal := py_get wifi_info "signal" PNone in
  let? local_ip :=
    (let? ip := py_get cam_status "local_ip" PNone in
     if py_truthy ip then Ok ip else py_get wifi_info "address" PNone) in
  Ok (<["name" := name]>
      (<["version" := version]>
      (<["upgrade_available" := upgrade_available]>
      (<["status" := status]>
      (<["wan_ip" := wan_ip]>
      (<["pir_status" := pir_status]>
      (<["motion" := motion]>
      (<["seconds_last_trigger" := seconds_last_trigger]>
      (<["last_alarm_time" := last_alarm_time]>
      (<["last_alarm_pic" := last_alarm_pic]>
      (<["alarm_name" := alarm_name]>
      (<["ssid" := ssid]>
      (<["signal" := signal]>
      (<["local_ip" := local_ip]> ∅)))))))))))))).

(** [Hp7Api.get_status]. *)
Definition get_status (serial : string) : M W (gmap string pyval) :=
  ensure_client >>
  let* a := get_self in
  match _client a with
  | None => ret ∅
  | Some c =>
      try_except
        (let* cam_status := call (CallStatus serial) (svc_status svc c serial) in
         fun st => (normalize_status cam_status, st))
        any_exception
        (fun _ => ret ∅)
  end.

End Methods.

(** ** coordinator.py and __init__.py *)

Definition UPDATE_INTERVAL_SEC : Z := 2.

(** [Hp7Coordinator]: the serial, and the two attributes of the framework base
    class that the entities read.  The [api] it holds is the object of the
    state the methods run on. *)
Record Hp7Coordinator : Type := mkCoordinator {
  serial : string;
  data : option (gmap string pyval);
  last_update_success : bool
}.

(** [Hp7Coordinator.__init__]. *)
Definition Hp7Coordinator_init (serial : string) : Hp7Coordinator :=
  {| serial := serial; data := None; last_update_success := true |}.

Record ConfigEntry : Type := mkEntry {
  entry_username : string;
  entry_password : string;
  entry_region : string;
  entry_serial : string;
  entry_token : option (gmap string pyval)
}.

Section Polling.
Context {W : Type} (svc : DeviceService W).

(** [Hp7Coordinator._async_update_data]. *)
Definition _async_update_data (coordinator : Hp7Coordinator)
  : M W (gmap string pyval) :=
  get_status svc (serial coordinator).

(** The periodic refresh of the host framework's coordinator base class,
    which is no code of this repository, as section 4.1 of the specification
    describes it: on success it replaces the stored snapshot; when the update
    method raises it keeps the previous snapshot, records the failure and
    raises nothing. *)
Definition async_refresh (coordinator : Hp7Coordinator)
  : M W Hp7Coordinator :=
  fun st =>
    match _async_update_data coordinator st with
    | (Ok d, st') =>
        (Ok {| serial := serial coordinator; data := Some d;
               last_update_success := true |}, st')
    | (Raise _, st') =>
        (Ok {| serial := serial coordinator; data := data coordinator;
               last_update_success := false |}, st')
    end.

(** The first refresh of the same base class, again after section 4.1: when
    the update method raises, the failure is escalated as a not-ready error. *)
Definition async_config_entry_first_refresh (coordinator : Hp7Coordinator)
  : M W Hp7Coordinator :=
  fun st =>
    match _async_update_data coordinator st with
    | (Ok d, st') =>
        (Ok {| serial := serial coordinator; data := Some d;
               last_update_success := true |}, st')
    | (Raise _, st') => (Raise ConfigEntryNotReady, st')
    end.

(** [async_setup_entry] of [__init__.py], lines 37 to 50, for an entry whose
    data hold the keys read before them: the construction of the API object,
    the login and the capability detection under the first [try], the first
    refresh under the second.  It gives the API object and the coordinator
    that the lines after them store for the platforms; the reads of
    [entry.data] and the forwarding to the platforms are not part of it. *)
Definition async_setup_entry (entry : ConfigEntry) (w : W)
  : result (Hp7Api * Hp7Coordinator) * W :=
  match Hp7Api_init (entry_username entry) (Some (entry_password entry))
          (entry_region entry) (entry_token entry) with
  | Raise _ => (Raise ConfigEntryNotReady, w)
  | Ok api =>
      let setup :=
        try_except
          (login svc >> detect_capabilities svc (entry_serial entry))
          any_exception
          (fun _ => raise ConfigEntryNotReady) >>
        try_except
          (async_config_entry_first_refresh
             (Hp7Coordinator_init (entry_serial entry)))
          any_exception
          (fun _ => raise ConfigEntryNotReady) in
      match setup (mkSt api w []) with
      | (Ok coordinator, st) => (Ok (self st, coordinator), world st)
      | (Raise e, st) => (Raise e, world st)
      end
  end.

End Polling.

(** The snapshot fields of [get_status] that are read from the status
    dictionary itself, each with the key it is read from. *)
Definition STATUS_FIELDS : list (string * string) :=
  [ ("name", "name"); ("version", "version");
    ("upgrade_available", "upgrade_available"); ("status", "status");
    ("wan_ip", "wan_ip"); ("pir_status", "PIR_Status");
    ("motion", "Motion_Trigger");
    ("seconds_last_trigger", "Seconds_Last_Trigger");
    ("last_alarm_time", "last_alarm_time");
    ("last_alarm_pic", "last_alarm_pic");
    ("alarm_name", "last_alarm_type_name") ]%string.

(** The snapshot fields read from the [WIFI] sub-dictionary. *)
Definition WIFI_FIELDS : list (string * string) :=
  [ ("ssid", "ssid"); ("signal", "signal") ]%string.

(** The keys of the dictionary literal of [get_status]. *)
Definition SNAPSHOT_KEYS : gset string :=
  list_to_set (STATUS_FIELDS.*1 ++ WIFI_FIELDS.*1 ++ ["local_ip"%string]).

(** The regions named by the docstring of [Hp7Api.__init__]. *)
Definition SUPPORTED_REGIONS : list string :=
  ["eu"; "us"; "cn"; "as"; "sa"; "ru"]%string.

(** ** Vocabulary of the statements, and the devices of the examples *)

Definition count_true {A} (f : A → bool) (l : list A) : nat :=
  length (List.filter f l).

Definition doorbell_sensor : Hp7BinaryAlarm :=
  Hp7BinaryAlarm_init ["Your doorbell is ringing"%string].

Definition ring_at (alarm_time : pyval) : option (gmap string pyval) :=
  Some {[ "alarm_name"%string := PStr "Your doorbell is ringing";
          "last_alarm_time"%string := alarm_time ]}.

(** A snapshot that names the doorbell alarm and carries no alarm time. *)
Definition ring_without_time : option (gmap string pyval) :=
  Some {[ "alarm_name"%string := PStr "Your doorbell is ringing" ]}.

Definition ten_o_clock : pyval := PStr "2024-01-01 10:00:00".
Definition ten_past_ten : pyval := PStr "2024-01-01 10:10:00".

(** The alarm time of a coordinator snapshot, as the sensor reads it. *)
Definition alarm_time_of (d : option (gmap string pyval)) : pyval :=
  dict_get (data_or_empty d) ALARM_TIME_FIELD.

(** An event that does not meet the trigger condition of [self]. *)
Definition idle_event (self : Hp7BinaryAlarm) (ev : Event) : bool :=
  match ev with
  | CoordinatorUpdate _ u => negb (alarm_condition self u)
  | SwitchOffDue => true
  end.

(** An event that is not an update with another alarm time than the one of
    [d]. *)
Definition repeats_alarm_time (d : option (gmap string pyval)) (ev : Event)
  : bool :=
  match ev with
  | CoordinatorUpdate _ u => py_eq (alarm_time_of u) (alarm_time_of d)
  | SwitchOffDue => true
  end.

(** Two sensor states that differ at most in the pending switch-off. *)
Definition same_pulse (s1 s2 : Hp7BinaryAlarm) : Prop :=
  _match_values s1 = _match_values s2
  ∧ _last_trigger s1 = _last_trigger s2
  ∧ _prev_alarm_time s1 = _prev_alarm_time s2.

(** What the probe of [detect_capabilities] can end in without leaving the
    method: a returned value, or one of the three caught classes. *)
Definition probe_caught (outcome : result pyval) : bool :=
  match outcome with
  | Ok _ => true
  | Raise e => key_attribute_value_error e
  end.

(** A device service whose probe raises [KeyError]. *)
Definition probe_failing_service : DeviceService unit :=
  {| svc_new := fun _ w => (Ok tt, w);
     svc_login := fun _ w => (Ok (Some {[ "username"%string := PStr "u1" ]}), w);
     svc_get_device_infos := fun _ _ w => (Raise KeyError, w);
     svc_remote_unlock := fun _ _ _ _ w => (Ok tt, w);
     svc_status := fun _ _ w => (Ok (PDict ∅), w);
     svc_logout := fun _ w => (Ok tt, w) |}.

(** An API object that has not logged in yet. *)
Definition fresh_api : Hp7Api :=
  {| _username := "user"; _password := Some "secret"%string; _region := "eu";
     _token := None; _client := None; _url := "apiieu.ezvizlife.com";
     supports_door := true; supports_gate := true |}.

Definition is_ok {A} (r : result A) : bool :=
  match r with
  | Ok _ => true
  | Raise _ => false
  end.

Section DispatchSpec.
Context {W : Type} (svc : DeviceService W).

(** The dispatch in the words of the specification: one client call for the
    primary lock number; when it fails, one more for the fallback; success
    when one of the attempted calls succeeded; nothing is raised. *)
Definition spec_dispatch (primary fallback : Z) (c : EzvizClient)
    (serial : string) (user_id : pyval) (st : St W) : result bool * St W :=
  let unlock n := CallRemoteUnlock serial user_id n in
  match svc_remote_unlock svc c serial user_id primary (world st) with
  | (Ok _, w1) => (Ok true, mkSt (self st) w1 (calls st ++ [unlock primary]))
  | (Raise _, w1) =>
      match svc_remote_unlock svc c serial user_id fallback w1 with
      | (r2, w2) =>
          (Ok (is_ok r2),
           mkSt (self st) w2 (calls st ++ [unlock primary; unlock fallback]))
      end
  end.

End DispatchSpec.

(** A device whose relays answer on lock 1 only: every [remote_unlock] with
    another lock number raises. *)
Definition lock_one_service : DeviceService unit :=
  {| svc_new := fun _ w => (Ok tt, w);
     svc_login := fun _ w => (Ok (Some {[ "username"%string := PStr "u1" ]}), w);
     svc_get_device_infos := fun _ _ w => (Ok (PDict ∅), w);
     svc_remote_unlock := fun _ _ _ lock_no w =>
       if lock_no =? 1 then (Ok tt, w) else (Raise (OtherError "PyEzvizError"), w);
     svc_status := fun _ _ w => (Ok (PDict ∅), w);
     svc_logout := fun _ w => (Ok tt, w) |}.

(** A device service that refuses the login. *)
Definition refusing_service : DeviceService unit :=
  {| svc_new := fun _ w => (Ok tt, w);
     svc_login := fun _ w => (Raise (OtherError "PyEzvizError"), w);
     svc_get_device_infos := fun _ _ w => (Ok (PDict ∅), w);
     svc_remote_unlock := fun _ _ _ _ w => (Ok tt, w);
     svc_status := fun _ _ w => (Ok (PDict ∅), w);
     svc_logout := fun _ w => (Ok tt, w) |}.

Definition a_client : EzvizClient :=
  {| account := "user"; password := Some "secret"%string;
     url := "apiieu.ezvizlife.com"; token := None |}.

Definition a_token : gmap string pyval := {[ "username"%string := PStr "u1" ]}.

(** An API object after a successful login. *)
Definition logged_in_api : Hp7Api :=
  set_token (Some a_token) (set_client (Some a_client) fresh_api).

(** The [WIFI] entry of a status dictionary when it is absent or a
    dictionary itself: the sub-dictionary the fields are read from. *)
Definition wifi_of (cam_status : gmap string pyval)
  : option (gmap string pyval) :=
  match cam_status !! "WIFI"%string with
  | None => Some ∅
  | Some (PDict wifi) => Some wifi
  | Some _ => None
  end.

(** A device service that answers every status request with [cam_status]. *)
Definition status_service (cam_status : pyval) : DeviceService unit :=
  {| svc_new := fun _ w => (Ok tt, w);
     svc_login := fun _ w => (Ok (Some {[ "username"%string := PStr "u1" ]}), w);
     svc_get_device_infos := fun _ _ w => (Ok (PDict ∅), w);
     svc_remote_unlock := fun _ _ _ _ w => (Ok tt, w);
     svc_status := fun _ _ w => (Ok cam_status, w);
     svc_logout := fun _ w => (Ok tt, w) |}.

(** A status with a name and a motion flag and nothing else. *)
Definition sparse_status : gmap string pyval :=
  {[ "name"%string := PStr "Front door"; "Motion_Trigger"%string := PInt 1 ]}.

(** A status whose [WIFI] entry is there and holds [None]. *)
Definition null_wifi_status : gmap string pyval :=
  {[ "name"%string := PStr "Front door"; "WIFI"%string := PNone ]}.

Definition an_entry : ConfigEntry :=
  {| entry_username := "user"; entry_password := "secret";
     entry_region := "eu"; entry_serial := "HP7-0001"; entry_token := None |}.

(** A device service whose status request succeeds the first time and raises
    afterwards; its state counts the status requests. *)
Definition flaky_service : DeviceService nat :=
  {| svc_new := fun _ w => (Ok tt, w);
     svc_login := fun _ w => (Ok (Some {[ "username"%string := PStr "u1" ]}), w);
     svc_get_device_infos := fun _ _ w => (Ok (PDict ∅), w);
     svc_remote_unlock := fun _ _ _ _ w => (Ok tt, w);
     svc_status := fun _ _ w =>
       (match w with
        | O => Ok (PDict sparse_status)
        | S _ => Raise (OtherError "ConnectionError")
        end, S w);
     svc_logout := fun _ w => (Ok tt, w) |}.

Definition hp7_coordinator : Hp7Coordinator :=
  {| serial := "HP7-0001";
     data := Some {[ "name"%string := PStr "Front door" ]};
     last_update_success := true |}.

(** ** More of api.py *)

(** The [token] property of [Hp7Api]. *)
Definition Hp7Api_token (a : Hp7Api) : option (gmap string pyval) := _token a.

(** [data.get("name") or data.get("deviceName") or "Device"]. *)
Definition device_name_of (data : pyval) : result pyval :=
  let? name := py_get data "name" PNone in
  if py_truthy name then Ok name
  else
    let? device_name := py_get data "deviceName" PNone in
    if py_truthy device_name then Ok device_name else Ok (PStr "Device").

(** The loop of [list_devices] over [devices.items()]: an object that is no
    dictionary has no [items], and an entry that is no dictionary has no
    [get]. *)
Definition collect_devices (devices : pyval)
  : result (gmap string (gmap string pyval)) :=
  match devices with
  | PDict ds =>
      map_fold
        (fun serial data acc =>
           let? result := acc in
           let? name := device_name_of data in
           Ok (<[serial := {[ "device_name"%string := name ]}]> result))
        (Ok ∅) ds
  | _ => Raise AttributeError
  end.

Section Listing.
Context {W : Type} (svc : DeviceService W).

(** The call [self._client.get_device_infos()] without a serial, as an action
    of the device client. *)
Context (get_all_device_infos : EzvizClient → M W pyval).

(** [Hp7Api.list_devices]. *)
Definition list_devices : M W (gmap string (gmap string pyval)) :=
  ensure_client svc >>
  let* a := get_self in
  match _client a with
  | None => ret ∅
  | Some c =>
      let* fetched :=
        try_except
          (let* devices := get_all_device_infos c in ret (Some devices))
          key_attribute_value_error
          (fun _ => ret None) in
      match fetched with
      | None => ret ∅
      | Some devices => fun st => (collect_devices devices, st)
      end
  end.

End Listing.

(** The client [ensure_client] builds for an object. *)
Definition client_of (a : Hp7Api) : EzvizClient :=
  {| account := _username a; password := _password a; url := _url a;
     token := _token a |}.

(** Both capability flags are set. *)
Definition capabilities_on (a : Hp7Api) : Prop :=
  supports_door a = true ∧ supports_gate a = true.

(** A property of the object that the three ways the methods write to it
    keep: storing a client, storing a token, setting both flags. *)
Definition kept_by_writes (P : Hp7Api → Prop) : Prop :=
  (∀ c a, P a → P (set_client (Some c) a))
  ∧ (∀ t a, P a → P (set_token t a))
  ∧ (∀ a, P a → P (set_supports true true a)).

(** The action [m] keeps the property [P] of the object, whether it returns
    or raises. *)
Definition preserves {W A : Type} (P : Hp7Api → Prop) (m : M W A) : Prop :=
  ∀ st, P (self st) → P (self (m st).2).

(** [v] is a dictionary. *)
Definition is_dict (v : pyval) : bool :=
  match v with PDict _ => true | _ => false end.

(** The name [list_devices] gives a device whose record is [d]: its [name],
    else its [deviceName], else the word [Device]. *)
Definition listed_name (d : gmap string pyval) : pyval :=
  py_or (dict_get d "name") (py_or (dict_get d "deviceName") (PStr "Device")).

(** The entry [list_devices] makes of a device record. *)
Definition listed_entry (data : pyval) : gmap string pyval :=
  match data with
  | PDict d => {[ "device_name"%string := listed_name d ]}
  | _ => ∅
  end.

(** ** button.py *)

(** [async_setup_entry] of [button.py]: the actions of the buttons it adds,
    in the order it adds them. *)
Definition button_async_setup_entry (api : Hp7Api) : list string :=
  (if supports_gate api then ["unlock_gate"%string] else [])
  ++ (if supports_door api then ["unlock_door"%string] else []).

(** A record handed to a logger: the level, the format and its arguments. *)
Inductive LogLevel : Type := DEBUG | INFO | ERROR.

Record LogRecord : Type := mkLog {
  log_level : LogLevel;
  log_format : string;
  log_args : list string
}.

(** The three records of [EzvizHp7Button.async_press]. *)
Definition log_pressed (action serial : string) : LogRecord :=
  mkLog DEBUG "EZVIZ HP7 button pressed: %s (%s)" [action; serial].

Definition log_successful (log_msg : string) : LogRecord :=
  mkLog INFO "EZVIZ HP7: %s successful" [log_msg].

Definition log_failed (log_msg : string) : LogRecord :=
  mkLog ERROR "EZVIZ HP7: %s failed" [log_msg].

Section Buttons.
Context {W : Type} (svc : DeviceService W).

(** [EzvizHp7Button.async_press] for the button of [action] and [serial]:
    the records it hands to the logger of [button.py], in order, and how the
    press ends.  The debug record of the press is logged before the action is
    looked at, so it is there also when the unlock raises or the action is
    unknown; the record of the outcome follows an unlock that returned. *)
Definition async_press (action serial : string)
  : St W → list LogRecord * (result unit * St W) :=
  fun st =>
    let pressed := log_pressed action serial in
    let finish (log_msg : string) (r : result bool * St W) :=
      match r with
      | (Ok success, st') =>
          ([pressed; if success then log_successful log_msg
                     else log_failed log_msg], (Ok tt, st'))
      | (Raise e, st') => ([pressed], (Raise e, st'))
      end in
    if bool_decide (action = "unlock_gate"%string) then
      finish "Unlock Gate"%string (unlock_gate svc serial st)
    else if bool_decide (action = "unlock_door"%string) then
      finish "Unlock Door"%string (unlock_door svc serial st)
    else ([pressed], (Ok tt, st)).

End Buttons.

(** The methods of [Hp7Api] a caller can run on the object. *)
Inductive Method : Type :=
  | MLogin
  | MDetectCapabilities (serial : string)
  | MClose
  | MUnlockDoor (serial : string)
  | MUnlockGate (serial : string)
  | MGetStatus (serial : string).

Section Sessions.
Context {W : Type} (svc : DeviceService W).

(** One method call; its result or exception is dropped, the state it leaves
    is kept. *)
Definition run_method (st : St W) (m : Method) : St W :=
  match m with
  | MLogin => (login svc st).2
  | MDetectCapabilities serial => (detect_capabilities svc serial st).2
  | MClose => (close svc st).2
  | MUnlockDoor serial => (unlock_door svc serial st).2
  | MUnlockGate serial => (unlock_gate svc serial st).2
  | MGetStatus serial => (get_status svc serial st).2
  end.

Definition run_methods (st : St W) (ms : list Method) : St W :=
  fold_left run_method ms st.

End Sessions.

(** ** sensor.py *)

(** [path.split(".")]: the full stop is one byte in UTF-8 and no part of
    another character. *)
Fixpoint split_dot (s : string) : list string :=
  match s with
  | EmptyString => [EmptyString]
  | String c rest =>
      if bool_decide (c = "."%char) then EmptyString :: split_dot rest
      else match split_dot rest with
           | seg :: segs => String c seg :: segs
           | [] => [String c EmptyString]
           end
  end.

(** The loop of [_dig] over the segments of the path. *)
Fixpoint dig_segments (cur : pyval) (segments : list string) (dflt : pyval)
  : pyval :=
  match segments with
  | [] => cur
  | p :: rest =>
      match cur with
      | PDict d =>
          match d !! p with
          | Some v => dig_segments v rest dflt
          | None => dflt
          end
      | _ => dflt
      end
  end.

(** [_dig(data, path, default)]. *)
Definition _dig (data : gmap string pyval) (path : string) (dflt : pyval)
  : pyval :=
  dig_segments (PDict data) (split_dot path) dflt.

(** [x in (e1, e2, ...)]. *)
Definition py_in (x : pyval) (l : list pyval) : bool :=
  existsb (fun e => py_eq e x) l.

Inductive SensorDeviceClass : Type :=
  | TIMESTAMP
  | DURATION.

(** The four [lambda]s of [SENSORS]. *)
Definition status_transform (v : pyval) : pyval :=
  if py_in v [PInt 1; PStr "1"; PBool true; PStr "online"]
  then PStr "online" else PStr "offline".

Definition signal_transform (v : pyval) : pyval :=
  match v with
  | PBool _ | PInt _ | PFloat _ => v
  | _ => PNone
  end.

Definition motion_transform (v : pyval) : pyval :=
  if py_in v [PInt 1; PStr "1"; PBool true; PStr "true"]
  then PStr "detected" else PStr "none".

Definition upgrade_transform (v : pyval) : pyval :=
  if py_in v [PInt 1; PStr "1"; PBool true; PStr "true"]
  then PStr "yes" else PStr "no".

Definition DIAGNOSTIC_KEYS : list string :=
  ["signal"; "ssid"; "local_ip"; "wan_ip"; "upgrade_available";
   "seconds_last_trigger"]%string.

(** Sensor configuration: key, translation key, device class, unit, icon,
    transform. *)
Definition SENSORS
  : list (string * string * option SensorDeviceClass * option string
          * option string * option (pyval → pyval)) :=
  [ ("name", "name", None, None, Some "mdi:label", None);
    ("version", "version", None, None, Some "mdi:update", None);
    ("status", "status", None, None, Some "mdi:power", Some status_transform);
    ("signal", "signal", None, Some "%", Some "mdi:wifi", Some signal_transform);
    ("ssid", "ssid", None, None, Some "mdi:wifi", None);
    ("local_ip", "local_ip", None, None, Some "mdi:ip", None);
    ("wan_ip", "wan_ip", None, None, Some "mdi:wan", None);
    ("motion", "motion", None, None, Some "mdi:run", Some motion_transform);
    ("last_alarm_time", "last_alarm_time", Some TIMESTAMP, None,
     Some "mdi:clock-alert", None);
    ("alarm_name", "alarm_name", None, None, Some "mdi:alert", None);
    ("seconds_last_trigger", "seconds_last_trigger", Some DURATION, Some "s",
     Some "mdi:timer", None);
    ("upgrade_available", "upgrade_available", None, None, Some "mdi:update",
     Some upgrade_transform) ]%string.

Record Hp7Sensor : Type := mkSensor {
  _path : string;
  _attr_translation_key : string;
  _attr_device_class : option SensorDeviceClass;
  _unit : option string;
  _icon : option string;
  _transform : option (pyval → pyval)
}.

(** [Hp7Sensor(coordinator, serial, *cfg)]. *)
Definition Hp7Sensor_init
    (cfg : string * string * option SensorDeviceClass * option string
           * option string * option (pyval → pyval)) : Hp7Sensor :=
  let '(path, translation_key, device_class, unit, icon, transform) := cfg in
  {| _path := path; _attr_translation_key := translation_key;
     _attr_device_class := device_class; _unit := unit; _icon := icon;
     _transform := transform |}.

(** What [native_value] returns: a decoded value, [None] included, or the
    timestamp it parsed. *)
Inductive NativeValue (DT : Type) : Type :=
  | NVal (v : pyval)
  | NTime (t : DT).

Arguments NVal {DT} v.
Arguments NTime {DT} t.

Section SensorValues.
(** [datetime.strptime(val, "%Y-%m-%d %H:%M:%S")] with the time zone set, from
    the standard library: the timestamp of a text, or nothing when the text
    does not match the format ([ValueError]). *)
Context {DT : Type} (strptime : string → option DT).

(** [Hp7Sensor.native_value]. *)
Definition native_value (s : Hp7Sensor)
    (coordinator_data : option (gmap string pyval)) : NativeValue DT :=
  let data := data_or_empty coordinator_data in
  let val := _dig data (_path s) PNone in
  match _attr_device_class s with
  | Some TIMESTAMP =>
      if negb (py_truthy val) then NVal PNone
      else match val with
           | PStr text =>
               match strptime text with
               | Some dt => NTime dt
               | None => NVal PNone
               end
           | _ => NVal PNone
           end
  | _ =>
      match _transform s with
      | Some transform => NVal (transform val)
      | None => NVal val
      end
  end.

End SensorValues.

(** ** camera.py *)

(** A header of the snapshot request: a literal text, or the text
    [f"Bearer {access_token}"] of an access token. *)
Inductive HeaderValue : Type :=
  | HText (s : string)
  | HBearer (access_token : pyval).

Record Request : Type := mkRequest {
  req_url : pyval;
  req_headers : gmap string HeaderValue;
  req_timeout : Z
}.

(** The response of the snapshot request: its status, and what reading its
    body gives. *)
Record Response : Type := mkResponse {
  resp_status : Z;
  resp_read : result string
}.

Section Camera.
(** [session.get] of the framework's HTTP session. *)
Context {W : Type} (http_get : Request → W → result Response * W).

(** [Hp7LastSnapshotCamera.async_camera_image]: the image it returns, and the
    requests it made. *)
Definition async_camera_image (coordinator_data : option (gmap string pyval))
    (api : Hp7Api) (w : W) : option string * list Request * W :=
  let url := dict_get (data_or_empty coordinator_data) "last_alarm_pic" in
  if negb (py_truthy url) then (None, [], w)
  else
    match Hp7Api_token api with
    | None => (None, [], w)
    | Some token =>
        if token_falsy (Some token) then (None, [], w)
        else
          let access_token := dict_get token "access_token" in
          let headers : gmap string HeaderValue :=
            {[ "User-Agent"%string := HText "EZVIZ/5.0" ]} in
          let headers :=
            if py_truthy access_token
            then <["Authorization"%string := HBearer access_token]> headers
            else headers in
          let request := {| req_url := url; req_headers := headers;
                            req_timeout := 15 |} in
          match http_get request w with
          | (Ok resp, w') =>
              if resp_status resp =? 200 then
                match resp_read resp with
                | Ok body => (Some body, [request], w')
                | Raise _ => (None, [request], w')
                end
              else (None, [request], w')
          | (Raise _, w') => (None, [request], w')
          end
    end.

End Camera.

(** ** Unique ids *)

Definition DOMAIN : string := "ezviz_hp7".

(** [path.replace('.', '_')]. *)
Fixpoint replace_dot (s : string) : string :=
  match s with
  | EmptyString => EmptyString
  | String c rest =>
      String (if bool_decide (c = "."%char) then "_"%char else c)
        (replace_dot rest)
  end.

(** [f"{DOMAIN}_{serial}_binary_{key}"] of [Hp7BinarySimple]. *)
Definition binary_unique_id (serial key : string) : string :=
  DOMAIN +:+ "_" +:+ serial +:+ "_binary_" +:+ key.

(** [f"{DOMAIN}_{serial}_alarm_{translation_key}"] of [Hp7BinaryAlarm]. *)
Definition alarm_unique_id (serial translation_key : string) : string :=
  DOMAIN +:+ "_" +:+ serial +:+ "_alarm_" +:+ translation_key.

(** [f"{DOMAIN}_{serial}_sensor_{path.replace('.', '_')}"] of [Hp7Sensor]. *)
Definition sensor_unique_id (serial path : string) : string :=
  DOMAIN +:+ "_" +:+ serial +:+ "_sensor_" +:+ replace_dot path.

(** [f"{DOMAIN}_{serial}_{action}"] of [EzvizHp7Button]. *)
Definition button_unique_id (serial action : string) : string :=
  DOMAIN +:+ "_" +:+ serial +:+ "_" +:+ action.

(** [f"{DOMAIN}_{serial}_last_snapshot"] of [Hp7LastSnapshotCamera]. *)
Definition camera_unique_id (serial : string) : string :=
  DOMAIN +:+ "_" +:+ serial +:+ "_last_snapshot".

(** The unique ids of all the entities the four platforms add for one
    device. *)
Definition entity_unique_ids (serial : string) (api : Hp7Api) : list string :=
  map (fun e => binary_unique_id serial e.1.1) SIMPLE_MAP
  ++ map (fun e => alarm_unique_id serial e.1.1.2) ALARM_MAP
  ++ map (fun cfg => sensor_unique_id serial (_path (Hp7Sensor_init cfg))) SENSORS
  ++ map (button_unique_id serial) (button_async_setup_entry api)
  ++ [camera_unique_id serial].

(** ** config_flow.py *)

(** [len(s)]: the characters of a text are the bytes of its UTF-8 form that
    are no continuation bytes. *)
Definition py_len (s : string) : nat :=
  length (List.filter (fun b => negb ((128 <=? b)%N && (b <? 192)%N))
            (bytes_of s)).

(** ["-" in s]. *)
Definition has_dash (s : string) : bool :=
  existsb (fun b => (b =? 45)%N) (bytes_of s).

(** [_looks_like_long_serial(serial)]. *)
Definition _looks_like_long_serial (serial : string) : bool :=
  has_dash serial || bool_decide (12 ≤ py_len serial)%nat.

(** The text [f"{name} ({shown_serial})"] of a device option. *)
Record Label : Type := mkLabel {
  label_name : string;
  label_serial : pyval
}.

(** A value that can be a dictionary key: lists and dictionaries cannot. *)
Definition hashable (v : pyval) : bool :=
  match v with
  | PList _ | PDict _ => false
  | _ => true
  end.

(** One round of the loop of [async_step_user] over the listed devices.
    [options] and [serial_to_unique] hold their entries in the order they
    were added. *)
Definition option_step
    (acc : list (pyval * Label) * list (pyval * pyval))
    (item : string * gmap string pyval)
  : result (list (pyval * Label) * list (pyval * pyval)) :=
  let '(options, serial_to_unique) := acc in
  let '(serial_key, info) := item in
  let? name :=
    match py_or (py_or (dict_get info "name") (dict_get info "device_name"))
            (PStr "Device") with
    | PStr text => Ok (py_strip text)
    | _ => Raise AttributeError
    end in
  let api_unique :=
    py_or (py_or (py_or (py_or (dict_get info "device_id") (dict_get info "uuid"))
                    (dict_get info "serial_long"))
             (dict_get info "full_serial")) PNone in
  let shown_serial :=
    if _looks_like_long_serial serial_key then PStr serial_key
    else py_or (py_or (dict_get info "serial_long") (dict_get info "full_serial"))
           PNone in
  if negb (py_truthy shown_serial) then Ok acc
  else
    let unique_id := py_or api_unique shown_serial in
    let? offered :=
      if hashable shown_serial
      then Ok (existsb (fun kv => py_eq kv.1 shown_serial) options)
      else Raise (OtherError "TypeError") in
    if offered || existsb (fun kv => py_eq kv.2 unique_id) serial_to_unique
    then Ok acc
    else Ok (options ++ [(shown_serial, mkLabel name shown_serial)],
             serial_to_unique ++ [(shown_serial, unique_id)]).

(** The loop of [async_step_user] over the items of [devices]. *)
Fixpoint build_options
    (acc : list (pyval * Label) * list (pyval * pyval))
    (items : list (string * gmap string pyval))
  : result (list (pyval * Label) * list (pyval * pyval)) :=
  match items with
  | [] => Ok acc
  | item :: rest =>
      let? acc' := option_step acc item in
      build_options acc' rest
  end.

(** What the user typed into the first form, and the token the step adds. *)
Record UserInput : Type := mkUserInput {
  input_username : string;
  input_password : string;
  input_region : string;
  input_token : option (gmap string pyval)
}.

(** What [async_step_user] shows next. *)
Inductive FlowResult : Type :=
  | FormUser (errors_base : string)
  | FormPickSerial (cached_creds : UserInput)
      (device_options : list (pyval * Label))
      (serial_to_unique : list (pyval * pyval))
  | FormEnterSerial (cached_creds : UserInput).

Section ConfigFlow.
Context {W : Type} (svc : DeviceService W).
Context (get_all_device_infos : EzvizClient → M W pyval).

(** The [try] block of [async_step_user]: the input with the token, and the
    listed devices. *)
Definition user_step_connect (user_input : UserInput)
  : M W (UserInput * gmap string (gmap string pyval)) :=
  let* ok := login svc in
  if negb ok then raise ValueError
  else
    let* api := get_self in
    let user_input :=
      if token_falsy (Hp7Api_token api) then user_input
      else {| input_username := input_username user_input;
              input_password := input_password user_input;
              input_region := input_region user_input;
              input_token := Hp7Api_token api |} in
    let* devices := list_devices svc get_all_device_infos in
    ret (user_input, devices).

(** [ConfigFlow.async_step_user] on a filled form.  The devices are taken in
    the order [map_to_list] gives them. *)
Definition async_step_user (user_input : UserInput) (w : W)
  : result FlowResult * W :=
  match Hp7Api_init (input_username user_input)
          (Some (input_password user_input)) (input_region user_input) None with
  | Raise e =>
      (Ok (FormUser (match e with
                     | ValueError => "auth"
                     | _ => "cannot_connect"
                     end)), w)
  | Ok api =>
      match user_step_connect user_input (mkSt api w []) with
      | (Raise ValueError, st) => (Ok (FormUser "auth"), world st)
      | (Raise _, st) => (Ok (FormUser "cannot_connect"), world st)
      | (Ok (creds, devices), st) =>
          match build_options ([], []) (map_to_list devices) with
          | Raise e => (Raise e, world st)
          | Ok ([], _) => (Ok (FormEnterSerial creds), world st)
          | Ok (options, serial_to_unique) =>
              (Ok (FormPickSerial creds options serial_to_unique), world st)
          end
      end
  end.

End ConfigFlow.

(** The option the loop adds for a listed device with a long serial. *)
Definition offered_option (item : string * gmap string pyval)
  : pyval * Label :=
  (PStr item.1,
   mkLabel (match dict_get item.2 "device_name" with
            | PStr text => py_strip text
            | _ => EmptyString
            end) (PStr item.1)).

(** A device entry as [list_devices] makes it, with a text for a name. *)
Definition listed_with_text (info : gmap string pyval) : Prop :=
  ∃ text, text ≠ EmptyString ∧ info = {[ "device_name"%string := PStr text ]}.

(** ** Further vocabulary *)

(** What holds of an alarm sensor built for [match_values], whatever happened
    to it: the match values are the ones it was built with; without a trigger
    instant there is no consumed alarm time and [_off_unsub] is [None]; with
    a trigger instant the consumed alarm time is not [None]. *)
Definition alarm_invariant (match_values : list string) (s : Hp7BinaryAlarm)
  : Prop :=
  _match_values s = match_values
  ∧ (_last_trigger s = None →
     _prev_alarm_time s = PNone ∧ _off_unsub s = None)
  ∧ (is_Some (_last_trigger s) → _prev_alarm_time s ≠ PNone).

(** The text holds a full stop. *)
Fixpoint has_dot (s : string) : bool :=
  match s with
  | EmptyString => false
  | String c rest => bool_decide (c = "."%char) || has_dot rest
  end.

(** The sensor [async_setup_entry] of [sensor.py] builds for [key], when
    [SENSORS] has one. *)
Definition sensor_for (key : string) : option Hp7Sensor :=
  Hp7Sensor_init <$> List.find (fun cfg => bool_decide (cfg.1.1.1.1.1 = key)) SENSORS.

(** What a sensor shows when its key is missing from the snapshot. *)
Definition shown_when_missing (key : string) : pyval :=
  if bool_decide (key = "status"%string) then PStr "offline"
  else if bool_decide (key = "motion"%string) then PStr "none"
  else if bool_decide (key = "upgrade_available"%string) then PStr "no"
  else PNone.

(** A web server that answers every request with [resp]. *)
Definition fixed_server (resp : result Response)
  : Request → unit → result Response * unit :=
  fun _ w => (resp, w).

(** A listing call that returns [devices]. *)
Definition fixed_listing (devices : result pyval)
  : EzvizClient → M unit pyval :=
  fun _ st => (devices, st).

(** ** The devices of the further examples *)

(** An API object with a cached token and no client yet. *)
Definition cached_api : Hp7Api := set_token (Some a_token) fresh_api.

(** The client [ensure_client] builds for [cached_api]. *)
Definition cached_client : EzvizClient := client_of cached_api.

(** A listing of two devices: one named by [name], one without a name. *)
Definition two_devices : gmap string pyval :=
  {[ "BC1234567"%string := PDict {[ "name"%string := PStr "Front door" ]};
     "HP7-0001-LONG"%string := PDict {[ "deviceName"%string := PStr "" ]} ]}.

(** The same devices as [list_devices] returns them, in some order. *)
Definition listed_items : list (string * gmap string pyval) :=
  [ ("BC1234567"%string, {[ "device_name"%string := PStr " Front door " ]});
    ("HP7-0001-LONG"%string, {[ "device_name"%string := PStr "Device" ]}) ].

(** A status with a doorbell alarm. *)
Definition ringing_status : gmap string pyval :=
  {[ "last_alarm_type_name"%string := PStr "Your doorbell is ringing";
     "last_alarm_time"%string := PStr "2024-01-01 10:00:00" ]}.

(** A snapshot with a picture address. *)
Definition picture_snapshot : option (gmap string pyval) :=
  Some {[ "last_alarm_pic"%string := PStr "https://example.invalid/a.jpg" ]}.

(** An API object whose token holds an access token. *)
Definition bearer_api : Hp7Api :=
  set_token (Some {[ "access_token"%string := PStr "abc" ]}) logged_in_api.

(** The parser of a test: it knows one timestamp. *)
Definition one_timestamp (text : string) : option nat :=
  if bool_decide (text = "2024-01-01 10:00:00"%string) then Some 0%nat else None.

(** What was typed into the first form. *)
Definition typed_input : UserInput :=
  {| input_username := "user"; input_password := "secret";
     input_region := "eu"; input_token := None |}.

(** A device service that accepts everything; it stands for the service on
    a later day. *)
Definition willing_after_refusal : DeviceService unit :=
  status_service (PDict sparse_status).

(** * Properties *)

(** ** Boolean coercion *)

Lemma float_eq_int_zero (f : spec_float) :
  float_eq_int f 0 = true ↔ ∃ sg, f = S754_zero sg.
Proof.
  destruct f as [sg|sg| |sg m e]; simpl.
  - split; [eauto | reflexivity].
  - split; [discriminate | intros [? ?]; discriminate].
  - split; [discriminate | intros [? ?]; discriminate].
  - split; [| intros [? ?]; discriminate].
    destruct (0 <=? e) eqn:He; intros H; apply Z.eqb_eq in H.
    + apply Z.leb_le in He.
      assert (0 < 2 ^ e) by (apply Z.pow_pos_nonneg; lia).
      destruct sg; nia.
    + destruct sg; lia.
Qed.

(** C9. [_to_bool] is a total function on every value, and it returns true
    exactly for the boolean true, an integer other than zero, a float other
    than zero, and a string whose stripped, lower-cased form is one of
    ["1"], ["true"], ["on"], ["yes"], ["y"]; on [None], on zero, on every
    other string and on values of the other types it returns false. *)
Theorem to_bool_true_iff (value : pyval) :
  _to_bool value = true ↔
    value = PBool true
    ∨ (∃ z, value = PInt z ∧ z ≠ 0)
    ∨ (∃ f, value = PFloat f ∧ ∀ sg, f ≠ S754_zero sg)
    ∨ (∃ s, value = PStr s
            ∧ py_lower (py_strip s) ∈ ["1"; "true"; "on"; "yes"; "y"]%string).
Proof.
  destruct value as [|b|z|f|s|l|d]; simpl.
  - split; [discriminate |].
    intros [H|[(? & H & _)|[(? & H & _)|(? & H & _)]]]; discriminate.
  - split.
    + intros ->. by left.
    + intros [H|[(? & H & _)|[(? & H & _)|(? & H & _)]]]; try discriminate.
      by injection H.
  - split.
    + intros H. right; left. exists z. split; [done |].
      intros ->. discriminate.
    + intros [H|[(z' & H & Hz)|[(? & H & _)|(? & H & _)]]]; try discriminate.
      injection H as ->. apply negb_true_iff, Z.eqb_neq. exact Hz.
  - split.
    + intros H. right; right; left. exists f. split; [done |].
      intros sg ->. discriminate.
    + intros [H|[(? & H & _)|[(f' & H & Hf)|(? & H & _)]]]; try discriminate.
      injection H as ->. apply negb_true_iff.
      destruct (float_eq_int f' 0) eqn:E; [| done].
      apply float_eq_int_zero in E as [sg ->]. by destruct (Hf sg).
  - split.
    + intros H. right; right; right. exists s. split; [done |].
      by apply bool_decide_eq_true in H.
    + intros [H|[(? & H & _)|[(? & H & _)|(s' & H & Hs)]]]; try discriminate.
      injection H as ->. by apply bool_decide_eq_true.
  - split; [discriminate |].
    intros [H|[(? & H & _)|[(? & H & _)|(? & H & _)]]]; discriminate.
  - split; [discriminate |].
    intros [H|[(? & H & _)|[(? & H & _)|(? & H & _)]]]; discriminate.
Qed.

Example to_bool_yes_padded : _to_bool (PStr "  YES ") = true.
Proof. reflexivity. Qed.

Example to_bool_off : _to_bool (PStr "off") = false.
Proof. reflexivity. Qed.

Example to_bool_false_is_not_one : _to_bool (PBool false) = false.
Proof. reflexivity. Qed.

Example to_bool_nbsp :
  _to_bool (PStr (str_of [194; 160; 111; 78; 226; 128; 137]%N)) = true.
Proof. reflexivity. Qed.

(** ** Alarm categories *)

Lemma count_true_none {A} (f : A → bool) (l : list A) :
  (∀ x, x ∈ l → f x = false) → count_true f l = 0%nat.
Proof.
  unfold count_true. induction l as [|x l IH]; intros H; simpl; [done |].
  rewrite (H x) by left. apply IH. intros y Hy. apply H. by right.
Qed.

Lemma disjoint_lists_match_once (L : list (list string)) (s : string) :
  NoDup (concat L) →
  (count_true (fun l => bool_decide (s ∈ l)) L ≤ 1)%nat.
Proof.
  induction L as [|l L IH]; simpl; intros Hnd; [unfold count_true; simpl; lia |].
  apply NoDup_app in Hnd as (_ & Hdisj & Hrest).
  unfold count_true in *. simpl.
  case_bool_decide as Hin; simpl; [| by apply IH].
  fold (count_true (fun l => bool_decide (s ∈ l)) L).
  rewrite count_true_none; [lia |].
  intros l' Hl'. apply bool_decide_eq_false. intros Hs.
  apply (Hdisj s Hin). apply list_elem_of_In, in_concat.
  exists l'. by rewrite <- !list_elem_of_In.
Qed.

Lemma alarm_names_distinct : NoDup (concat (map match_values_of ALARM_MAP)).
Proof. apply (bool_decide_unpack _). vm_compute. exact I. Qed.

Lemma count_true_map {A B} (g : A → B) (f : B → bool) (l : list A) :
  count_true f (map g l) = count_true (fun x => f (g x)) l.
Proof.
  unfold count_true. induction l as [|x l IH]; simpl; [done |].
  destruct (f (g x)); simpl; by rewrite IH.
Qed.

Lemma count_true_le {A} (f g : A → bool) (l : list A) :
  (∀ x, f x = true → g x = true) →
  (count_true f l ≤ count_true g l)%nat.
Proof.
  unfold count_true. intros H. induction l as [|x l IH]; simpl; [lia |].
  destruct (f x) eqn:E.
  - rewrite (H x E). simpl. lia.
  - destruct (g x); simpl; lia.
Qed.

Lemma name_matches_once (name : pyval) :
  (count_true (fun e => py_in_strs name (match_values_of e)) ALARM_MAP ≤ 1)%nat.
Proof.
  destruct name as [| | | |s| |];
    try (rewrite count_true_none; [lia | done]).
  pose proof (disjoint_lists_match_once _ s alarm_names_distinct) as H.
  by rewrite count_true_map in H.
Qed.

(** C7. One alarm name belongs to at most one of the five categories of
    [ALARM_MAP], and so, whatever the states of the five alarm sensors are,
    one coordinator update triggers at most one of them. *)
Theorem alarm_categories_exclusive :
  (∀ name : pyval,
     (count_true (fun e => py_in_strs name (match_values_of e)) ALARM_MAP
      ≤ 1)%nat)
  ∧ (∀ (sensors : list Hp7BinaryAlarm)
       (coordinator_data : option (gmap string pyval)),
       map _match_values sensors = map match_values_of ALARM_MAP →
       (count_true (fun s => alarm_condition s coordinator_data) sensors
        ≤ 1)%nat).
Proof.
  split; [apply name_matches_once |].
  intros sensors d Hmv.
  set (name := dict_get (data_or_empty d) ALARM_FIELD).
  etransitivity.
  - apply (count_true_le _ (fun s => py_in_strs name (_match_values s))).
    intros s Hs. unfold alarm_condition in Hs.
    by apply andb_true_iff in Hs as [Hs%andb_true_iff%proj1 _].
  - rewrite <- (count_true_map _match_values (py_in_strs name)), Hmv,
      count_true_map.
    apply name_matches_once.
Qed.

Lemma alarm_categories_exclusive_witness :
  map _match_values alarm_entities = map match_values_of ALARM_MAP
  ∧ (count_true
       (fun s => alarm_condition s
          (Some {[ "alarm_name"%string := PStr "Monitor open the gate";
                   "last_alarm_time"%string := PStr "2024-01-01 10:00:00" ]}))
       alarm_entities ≤ 1)%nat.
Proof.
  split; [reflexivity |].
  apply (proj2 alarm_categories_exclusive). reflexivity.
Defined.

Example gate_alarm_triggers_gate_only :
  map (fun s => alarm_condition s
         (Some {[ "alarm_name"%string := PStr "Monitor open the gate";
                  "last_alarm_time"%string := PStr "2024-01-01 10:00:00" ]}))
      alarm_entities
  = [false; false; false; true; false].
Proof. vm_compute. reflexivity. Qed.

(** ** The alarm pulse *)

Lemma update_when_triggered self now d :
  alarm_condition self d = true →
  _handle_coordinator_update self now d
  = {| _match_values := _match_values self;
       _last_trigger := Some now;
       _prev_alarm_time := alarm_time_of d;
       _off_unsub := Some (now + PULSE_SECONDS * MICROS) |}.
Proof. unfold _handle_coordinator_update. by intros ->. Qed.

Lemma update_when_idle self now d :
  alarm_condition self d = false →
  _handle_coordinator_update self now d = self.
Proof. unfold _handle_coordinator_update. by intros ->. Qed.

Lemma same_pulse_refl s : same_pulse s s.
Proof. by repeat split. Qed.

Lemma same_pulse_trans s1 s2 s3 :
  same_pulse s1 s2 → same_pulse s2 s3 → same_pulse s1 s3.
Proof. intros (? & ? & ?) (? & ? & ?). repeat split; congruence. Qed.

Lemma same_pulse_condition s1 s2 d :
  same_pulse s1 s2 → alarm_condition s1 d = alarm_condition s2 d.
Proof. intros (Hm & _ & Hp). unfold alarm_condition. by rewrite Hm, Hp. Qed.

Lemma same_pulse_is_on s1 s2 t :
  same_pulse s1 s2 → Hp7BinaryAlarm_is_on s1 t = Hp7BinaryAlarm_is_on s2 t.
Proof. intros (_ & Hl & _). unfold Hp7BinaryAlarm_is_on. by rewrite Hl. Qed.

Lemma idle_event_same_pulse self s ev :
  same_pulse self s → idle_event self ev = true →
  same_pulse self (handle_event s ev).
Proof.
  intros Hs Hev. destruct ev as [now u|]; simpl in *.
  - apply negb_true_iff in Hev. rewrite (same_pulse_condition _ _ _ Hs) in Hev.
    by rewrite update_when_idle.
  - destruct Hs as (? & ? & ?). by repeat split.
Qed.

Lemma deliver_app self evs evs' :
  deliver self (evs ++ evs') = deliver (deliver self evs) evs'.
Proof.
  revert self. induction evs as [|ev evs IH]; intros self; simpl; [done |].
  apply IH.
Qed.

Lemma deliver_idle self s events :
  same_pulse self s →
  Forall (fun ev => idle_event self ev = true) events →
  same_pulse self (deliver s events).
Proof.
  intros Hs Hidle. revert s Hs.
  induction Hidle as [|ev evs Hev _ IH]; intros s Hs; simpl; [done |].
  apply IH. by apply idle_event_same_pulse.
Qed.

(** C6. In every state the sensor can be in, and so after every sequence of
    coordinator updates and switch-off callbacks, the value read at instant
    [now] is true exactly when a trigger instant is recorded and less than
    [PULSE_SECONDS] seconds have passed since it; a read changes nothing. *)
Theorem is_on_invariant (self : Hp7BinaryAlarm) (events : list Event)
    (now : Z) :
  Hp7BinaryAlarm_is_on (deliver self events) now = true ↔
    ∃ last, _last_trigger (deliver self events) = Some last
            ∧ now - last < PULSE_SECONDS * 1000000.
Proof.
  unfold Hp7BinaryAlarm_is_on.
  destruct (_last_trigger (deliver self events)) as [last|].
  - rewrite bool_decide_eq_true. split.
    + intros H. exists last. by split.
    + intros (l & [= <-] & H). exact H.
  - split; [discriminate | intros (l & [=] & _)].
Qed.

Lemma repeated_alarm_time_is_idle self now d ev :
  alarm_condition self d = true →
  repeats_alarm_time d ev = true →
  idle_event (_handle_coordinator_update self now d) ev = true.
Proof.
  intros Hd Hev. destruct ev as [now' u|]; simpl in *; [| done].
  rewrite (update_when_triggered _ _ _ Hd).
  unfold alarm_condition; simpl. unfold py_ne.
  fold (alarm_time_of u). rewrite Hev. simpl. by rewrite andb_false_r.
Qed.

(** C1, as the code has it.  Events that do not meet the trigger condition
    leave the output as it was, so a fresh sensor reads false until its first
    trigger.  An update handled at instant [now] that names an alarm of the
    match set and carries an alarm time that is not [None] and differs from
    the consumed one starts the pulse: the output read at instant [t] is true
    exactly when [t - now] is below [PULSE_SECONDS] seconds.  Later updates
    that carry the same alarm time neither extend nor restart the pulse: the
    recorded trigger instant stays [now]. *)
Theorem alarm_pulse_output (self : Hp7BinaryAlarm) (before later : list Event)
    (now : Z) (d : option (gmap string pyval)) :
  Forall (fun ev => idle_event self ev = true) before →
  alarm_condition self d = true →
  Forall (fun ev => repeats_alarm_time d ev = true) later →
  let events := before ++ CoordinatorUpdate now d :: later in
  (∀ t, Hp7BinaryAlarm_is_on (deliver self before) t
        = Hp7BinaryAlarm_is_on self t)
  ∧ (_last_trigger self = None →
     ∀ t, Hp7BinaryAlarm_is_on (deliver self before) t = false)
  ∧ (∀ t, Hp7BinaryAlarm_is_on (deliver self events) t = true
          ↔ t - now < PULSE_SECONDS * 1000000)
  ∧ _last_trigger (deliver self events) = Some now
  ∧ _prev_alarm_time (deliver self events) = alarm_time_of d.
Proof.
  intros Hbefore Hd Hlater events.
  pose proof (deliver_idle self self before (same_pulse_refl _) Hbefore) as Hb.
  set (fired := _handle_coordinator_update (deliver self before) now d).
  assert (alarm_condition (deliver self before) d = true) as Hd'
    by (by rewrite <- (same_pulse_condition _ _ _ Hb)).
  assert (same_pulse fired (deliver self events)) as Hrun.
  { unfold events. rewrite deliver_app. simpl. apply deliver_idle.
    - apply same_pulse_refl.
    - eapply Forall_impl; [exact Hlater |].
      intros ev Hev. by apply repeated_alarm_time_is_idle. }
  assert (_last_trigger fired = Some now ∧ _prev_alarm_time fired = alarm_time_of d)
    as [Hlast Hprev]
    by (unfold fired; by rewrite (update_when_triggered _ _ _ Hd')).
  destruct Hrun as (_ & Hl & Hp). rewrite Hlast in Hl. rewrite Hprev in Hp.
  split; [| split; [| split; [| split]]].
  - intros t. symmetry. by apply same_pulse_is_on.
  - intros Hnone t. rewrite <- (same_pulse_is_on _ _ t Hb).
    unfold Hp7BinaryAlarm_is_on. by rewrite Hnone.
  - intros t. unfold Hp7BinaryAlarm_is_on. rewrite <- Hl.
    apply bool_decide_eq_true.
  - done.
  - done.
Qed.

Lemma alarm_pulse_output_witness :
  let before := [CoordinatorUpdate 0 (Some ∅);
                 CoordinatorUpdate 2000000 ring_without_time] in
  let later := [CoordinatorUpdate 6000000 (ring_at ten_o_clock);
                SwitchOffDue;
                CoordinatorUpdate 8000000 (ring_at ten_o_clock)] in
  Forall (fun ev => idle_event doorbell_sensor ev = true) before
  ∧ alarm_condition doorbell_sensor (ring_at ten_o_clock) = true
  ∧ Forall (fun ev => repeats_alarm_time (ring_at ten_o_clock) ev = true) later
  ∧ (∀ t, Hp7BinaryAlarm_is_on
            (deliver doorbell_sensor
               (before ++ CoordinatorUpdate 4000000 (ring_at ten_o_clock)
                  :: later)) t = true
          ↔ t - 4000000 < PULSE_SECONDS * 1000000).
Proof.
  assert (Forall (fun ev => idle_event doorbell_sensor ev = true)
            [CoordinatorUpdate 0 (Some ∅);
             CoordinatorUpdate 2000000 ring_without_time]) as H1
    by (repeat constructor).
  assert (alarm_condition doorbell_sensor (ring_at ten_o_clock) = true) as H2
    by (vm_compute; reflexivity).
  assert (Forall (fun ev => repeats_alarm_time (ring_at ten_o_clock) ev = true)
            [CoordinatorUpdate 6000000 (ring_at ten_o_clock);
             SwitchOffDue;
             CoordinatorUpdate 8000000 (ring_at ten_o_clock)])
    as H3 by (repeat constructor).
  repeat split; try assumption;
    apply (alarm_pulse_output doorbell_sensor _ _ 4000000 _ H1 H2 H3).
Defined.

(** The scenario of the specification: the doorbell rings once, the same
    snapshot is polled again, then a new ring arrives. *)
Example doorbell_scenario :
  let s1 := deliver doorbell_sensor [CoordinatorUpdate 0 (ring_at ten_o_clock)] in
  let s2 := deliver s1 [CoordinatorUpdate 2000000 (ring_at ten_o_clock)] in
  let s3 := deliver s2 [SwitchOffDue;
                        CoordinatorUpdate 600000000 (ring_at ten_past_ten)] in
  map (Hp7BinaryAlarm_is_on s1) [0; 2999999; 3000000] = [true; true; false]
  ∧ s2 = s1
  ∧ map (Hp7BinaryAlarm_is_on s3) [600000000; 602999999; 603000000]
    = [true; true; false].
Proof. vm_compute. repeat split. Qed.

(** C1, as it is worded, fails: after the ring of ten o'clock was consumed, a
    snapshot that names the doorbell alarm and has no alarm time meets the
    worded condition (its alarm time differs from the consumed one), yet no
    pulse starts. *)
Lemma pulse_needs_alarm_time :
  ¬ (∀ (self : Hp7BinaryAlarm) (now : Z) (d : option (gmap string pyval))
       (t : Z),
       spec_alarm_condition self d = true →
       (Hp7BinaryAlarm_is_on (_handle_coordinator_update self now d) t = true
        ↔ t - now < PULSE_SECONDS * 1000000)).
Proof.
  intros H.
  specialize (H (deliver doorbell_sensor
                   [CoordinatorUpdate 0 (ring_at ten_o_clock)])
                10000000 ring_without_time 10000000).
  assert (10000000 - 10000000 < PULSE_SECONDS * 1000000) as Hlt
    by (vm_compute; reflexivity).
  apply H in Hlt; [| vm_compute; reflexivity].
  vm_compute in Hlt. discriminate.
Qed.

(** ** The API object *)

(** C10. A region outside [eu], [us], [cn], [as], [sa], [ru] does not make the
    construction of the API object fail: the object is built, keeps the region
    it was given, and its endpoint is the one of [eu]. *)
Theorem unknown_region_falls_back_to_eu (username : string)
    (password : option string) (region : string)
    (token : option (gmap string pyval)) :
  region ∉ SUPPORTED_REGIONS →
  ∃ api, Hp7Api_init username password region token = Ok api
         ∧ _region api = region
         ∧ _url api = "apiieu.ezvizlife.com"%string
         ∧ REGION_URLS !! "eu"%string = Some (_url api).
Proof.
  intros Hregion. unfold SUPPORTED_REGIONS in Hregion.
  repeat (apply not_elem_of_cons in Hregion as [? Hregion]).
  assert (REGION_URLS !! "eu"%string = Some "apiieu.ezvizlife.com"%string)
    as Heu by (vm_compute; reflexivity).
  assert (REGION_URLS !! region = None) as Hnone.
  { unfold REGION_URLS. cbn [list_to_map foldr uncurry fst snd].
    rewrite !lookup_insert_ne by done. apply lookup_empty. }
  unfold Hp7Api_init, py_getitem. rewrite Heu, Hnone. simpl.
  eexists. repeat split.
Qed.

Lemma unknown_region_falls_back_to_eu_witness :
  (("mars" : string) ∉ SUPPORTED_REGIONS)
  ∧ ∃ api, Hp7Api_init "user" (Some "secret"%string) "mars" None = Ok api
           ∧ _url api = "apiieu.ezvizlife.com"%string.
Proof.
  assert (("mars" : string) ∉ SUPPORTED_REGIONS) as H
    by (apply (bool_decide_unpack _); vm_compute; exact I).
  split; [exact H |].
  destruct (unknown_region_falls_back_to_eu "user" (Some "secret"%string)
              "mars" None H) as (api & Hinit & _ & Hurl & _).
  exists api. by split.
Defined.

Example known_region_keeps_its_url :
  (_url <$> match Hp7Api_init "user" None "ru" None with
            | Ok a => Some a
            | Raise _ => None
            end)
  = Some "apirus.ezvizru.com"%string.
Proof. vm_compute. reflexivity. Qed.

Section ApiProperties.
Context {W : Type} (svc : DeviceService W).

Lemma ensure_client_ready (st : St W) c :
  _client (self st) = Some c → ensure_client svc st = (Ok tt, st).
Proof.
  intros Hc. unfold ensure_client, bind, get_self; simpl. by rewrite Hc.
Qed.

Lemma ensure_client_gives_client (st st1 : St W) u :
  ensure_client svc st = (Ok u, st1) → is_Some (_client (self st1)).
Proof.
  unfold ensure_client, bind, get_self; simpl.
  destruct (_client (self st)) as [c|] eqn:Hc.
  - intros [= _ <-]. by rewrite Hc.
  - unfold try_except, bind, call, modify_self; simpl.
    destruct (svc_new _ _ _) as [[[]|e] w1]; simpl; [| discriminate].
    destruct (token_falsy _); simpl.
    + unfold _login_and_store_token, bind, get_self, try_except, call,
        modify_self; simpl.
      destruct (svc_login _ _ _) as [[t|e] w2]; simpl.
      * intros [= _ <-]. simpl. eauto.
      * destruct (value_or_key_error e); simpl; discriminate.
    + intros [= _ <-]. simpl. eauto.
Qed.

(** C8. Once the client is there, whatever the serial and whatever the probe
    [get_device_infos] ends in, a value or a caught error, the method returns
    with [supports_door] and [supports_gate] both true; the state it leaves
    does not depend on what the probe returned. *)
Theorem detect_capabilities_sets_both (serial : string) (st st1 : St W)
    (c : EzvizClient) (outcome : result pyval) (w' : W) :
  ensure_client svc st = (Ok tt, st1) →
  _client (self st1) = Some c →
  svc_get_device_infos svc c serial (world st1) = (outcome, w') →
  probe_caught outcome = true →
  ∃ st2, detect_capabilities svc serial st = (Ok tt, st2)
         ∧ supports_door (self st2) = true
         ∧ supports_gate (self st2) = true
         ∧ st2 = mkSt (set_supports true true (self st1)) w'
                   (calls st1 ++ [CallDeviceInfos serial]).
Proof.
  intros Hens Hc Hprobe Hcaught.
  eexists. unfold detect_capabilities, bind. rewrite Hens.
  unfold try_except, bind, get_self, call, modify_self, ret; simpl.
  rewrite Hc, Hprobe.
  destruct outcome as [infos|e]; simpl in *.
  - destruct (py_get infos serial (PDict ∅)) as [dev|e'] eqn:Hget; simpl.
    + repeat split.
    + assert (e' = AttributeError) as ->
        by (destruct infos; simpl in Hget; congruence).
      simpl. repeat split.
  - rewrite Hcaught. simpl. repeat split.
Qed.

End ApiProperties.

Lemma detect_capabilities_sets_both_witness :
  ∃ st2, detect_capabilities probe_failing_service "HP7-0001"
           (mkSt fresh_api tt []) = (Ok tt, st2)
         ∧ supports_door (self st2) = true
         ∧ supports_gate (self st2) = true.
Proof.
  destruct (detect_capabilities_sets_both probe_failing_service "HP7-0001"
              (mkSt fresh_api tt [])
              (mkSt (set_token (Some {[ "username"%string := PStr "u1" ]})
                       (set_client
                          (Some {| account := "user";
                                   password := Some "secret"%string;
                                   url := "apiieu.ezvizlife.com";
                                   token := None |}) fresh_api))
                    tt
                    [CallNew {| account := "user";
                                password := Some "secret"%string;
                                url := "apiieu.ezvizlife.com";
                                token := None |}; CallLogin])
              {| account := "user"; password := Some "secret"%string;
                 url := "apiieu.ezvizlife.com"; token := None |}
              (Raise KeyError) tt)
    as (st2 & Hrun & Hdoor & Hgate & _);
    [vm_compute; reflexivity | reflexivity | reflexivity | reflexivity |].
  exists st2. by repeat split.
Defined.

(** ** Unlock dispatch *)

Section UnlockProperties.
Context {W : Type} (svc : DeviceService W).

Lemma try_unlock_ready (serial : string) (lock_no : Z) (st : St W)
    (c : EzvizClient) (tok : gmap string pyval) :
  _client (self st) = Some c →
  _token (self st) = Some tok →
  token_falsy (Some tok) = false →
  _try_unlock svc serial lock_no st
  = let user_id := unlock_user_id (self st) tok in
    match svc_remote_unlock svc c serial user_id lock_no (world st) with
    | (r, w1) =>
        (Ok (is_ok r),
         mkSt (self st) w1
           (calls st ++ [CallRemoteUnlock serial user_id lock_no]))
    end.
Proof.
  intros Hc Ht Hne. unfold _try_unlock, bind.
  rewrite (ensure_client_ready svc st c Hc).
  unfold get_self; simpl. rewrite Ht, Hc. cbv beta iota.
  simpl in Hne. rewrite Hne.
  unfold try_except, bind, call, ret; simpl.
  by destruct (svc_remote_unlock _ _ _ _ _ _) as [[[]|e] w1].
Qed.

(** C4, as the code has it.  With the session established, [unlock_door]
    attempts lock 2 and, only when that call raised, lock 1; [unlock_gate]
    attempts lock 1 and, only then, lock 2.  Each attempt is one
    [remote_unlock] call on the client, the result is true exactly when an
    attempted call returned, and nothing is raised. *)
Theorem unlock_dispatch (serial : string) (st : St W) (c : EzvizClient)
    (tok : gmap string pyval) :
  _client (self st) = Some c →
  _token (self st) = Some tok →
  token_falsy (Some tok) = false →
  let user_id := py_or (dict_get tok "username") (PStr (_username (self st))) in
  unlock_door svc serial st = spec_dispatch svc 2 1 c serial user_id st
  ∧ unlock_gate svc serial st = spec_dispatch svc 1 2 c serial user_id st
  ∧ is_ok (unlock_door svc serial st).1 = true
  ∧ is_ok (unlock_gate svc serial st).1 = true.
Proof.
  intros Hc Ht Hne user_id.
  assert (∀ p f, or_else (_try_unlock svc serial p) (_try_unlock svc serial f) st
                 = spec_dispatch svc p f c serial user_id st) as Hor.
  { intros p f. unfold or_else, bind, spec_dispatch.
    rewrite (try_unlock_ready serial p st c tok Hc Ht Hne).
    fold user_id. unfold unlock_user_id. fold user_id.
    destruct (svc_remote_unlock svc c serial user_id p (world st))
      as [[[]|e] w1]; simpl; [done |].
    rewrite (try_unlock_ready serial f
               (mkSt (self st) w1
                  (calls st ++ [CallRemoteUnlock serial user_id p]))
               c tok Hc Ht Hne); simpl.
    unfold unlock_user_id. fold user_id.
    destruct (svc_remote_unlock svc c serial user_id f w1) as [r2 w2].
    by rewrite <- app_assoc. }
  unfold unlock_door, unlock_gate, DEFAULT_DOOR_LOCK_NO, DEFAULT_GATE_LOCK_NO.
  rewrite !Hor. repeat split; unfold spec_dispatch;
    destruct (svc_remote_unlock svc c serial user_id _ (world st))
      as [[[]|e] w1]; simpl; try done;
    by destruct (svc_remote_unlock svc c serial user_id _ w1) as [r2 w2].
Qed.

End UnlockProperties.

Lemma unlock_dispatch_witness :
  unlock_door lock_one_service "HP7-0001" (mkSt logged_in_api tt [])
  = (Ok true,
     mkSt logged_in_api tt
       [CallRemoteUnlock "HP7-0001" (PStr "u1") 2;
        CallRemoteUnlock "HP7-0001" (PStr "u1") 1])
  ∧ unlock_gate lock_one_service "HP7-0001" (mkSt logged_in_api tt [])
    = (Ok true,
       mkSt logged_in_api tt [CallRemoteUnlock "HP7-0001" (PStr "u1") 1]).
Proof.
  destruct (unlock_dispatch lock_one_service "HP7-0001"
              (mkSt logged_in_api tt []) a_client a_token
              eq_refl eq_refl eq_refl) as (Hdoor & Hgate & _).
  split; [rewrite Hdoor | rewrite Hgate]; reflexivity.
Defined.

(** C4, as it is worded, fails on an object that has no session yet: the
    login that [_try_unlock] starts through [ensure_client] is refused, and
    [RuntimeError] leaves [unlock_door]; on the object this leaves behind, a
    client without a token, the next [unlock_door] makes no client call at
    all for its two attempts. *)
Lemma unlock_without_session :
  let first := unlock_door refusing_service "HP7-0001" (mkSt fresh_api tt []) in
  let second := unlock_door refusing_service "HP7-0001"
                  (mkSt (self first.2) tt []) in
  first.1 = Raise RuntimeError
  ∧ second = (Ok false, mkSt (self first.2) tt []).
Proof. vm_compute. split; reflexivity. Qed.

(** ** The status normaliser *)

Lemma normalize_status_dict (cs wifi : gmap string pyval) :
  wifi_of cs = Some wifi →
  normalize_status (PDict cs)
  = Ok (<["name"%string := dict_get cs "name"]>
       (<["version"%string := dict_get cs "version"]>
       (<["upgrade_available"%string := dict_get cs "upgrade_available"]>
       (<["status"%string := dict_get cs "status"]>
       (<["wan_ip"%string := dict_get cs "wan_ip"]>
       (<["pir_status"%string := dict_get cs "PIR_Status"]>
       (<["motion"%string := dict_get cs "Motion_Trigger"]>
       (<["seconds_last_trigger"%string := dict_get cs "Seconds_Last_Trigger"]>
       (<["last_alarm_time"%string := dict_get cs "last_alarm_time"]>
       (<["last_alarm_pic"%string := dict_get cs "last_alarm_pic"]>
       (<["alarm_name"%string := dict_get cs "last_alarm_type_name"]>
       (<["ssid"%string := dict_get wifi "ssid"]>
       (<["signal"%string := dict_get wifi "signal"]>
       (<["local_ip"%string :=
            py_or (dict_get cs "local_ip") (dict_get wifi "address")]>
          ∅)))))))))))))).
Proof.
  unfold wifi_of, normalize_status, py_or, dict_get. simpl.
  destruct (cs !! "WIFI"%string) as [[| | | | | |d]|];
    try discriminate; intros [= <-]; simpl;
    by destruct (py_truthy (default PNone (cs !! "local_ip"%string))).
Qed.

Lemma normalize_status_bad_wifi (cs : gmap string pyval) :
  wifi_of cs = None → normalize_status (PDict cs) = Raise AttributeError.
Proof.
  unfold wifi_of, normalize_status. simpl.
  by destruct (cs !! "WIFI"%string) as [[| | | | | |d]|].
Qed.

Section StatusProperties.
Context {W : Type} (svc : DeviceService W).

(** C5, as the code has it.  Let the status fetched from the device be a
    dictionary from which any fields may be missing, the [WIFI] sub-dictionary
    included, and whose [WIFI] entry, when it is there, is a dictionary.  Then
    the normaliser raises nothing and [get_status] returns a dictionary whose
    keys are exactly the fourteen of its literal; each field holds the value
    of the key it is read from and [None] when that key is missing. *)
Theorem get_status_fixed_fields (serial : string) (st : St W)
    (c : EzvizClient) (cs wifi : gmap string pyval) (w' : W) :
  _client (self st) = Some c →
  svc_status svc c serial (world st) = (Ok (PDict cs), w') →
  wifi_of cs = Some wifi →
  ∃ snap,
    normalize_status (PDict cs) = Ok snap
    ∧ get_status svc serial st
      = (Ok snap, mkSt (self st) w' (calls st ++ [CallStatus serial]))
    ∧ dom snap = SNAPSHOT_KEYS
    ∧ (∀ k src, (k, src) ∈ STATUS_FIELDS →
         snap !! k = Some (default PNone (cs !! src)))
    ∧ (∀ k src, (k, src) ∈ WIFI_FIELDS →
         snap !! k = Some (default PNone (wifi !! src)))
    ∧ snap !! "local_ip"%string
      = Some (py_or (default PNone (cs !! "local_ip"%string))
                    (default PNone (wifi !! "address"%string)))
    ∧ (cs !! "WIFI"%string = None → wifi = ∅).
Proof.
  intros Hc Hstatus Hwifi.
  eexists. split; [exact (normalize_status_dict cs wifi Hwifi) |]. split.
  { unfold get_status, bind. rewrite (ensure_client_ready svc st c Hc).
    unfold get_self; simpl. rewrite Hc.
    unfold try_except, bind, call; simpl. rewrite Hstatus.
    by rewrite (normalize_status_dict cs wifi Hwifi). }
  split.
  { rewrite !dom_insert_L, dom_empty_L. unfold SNAPSHOT_KEYS. simpl.
    set_solver. }
  split.
  { intros k src Hin. unfold STATUS_FIELDS in Hin.
    repeat (apply elem_of_cons in Hin as [[= -> ->]|Hin];
            [by simplify_map_eq |]).
    by apply elem_of_nil in Hin. }
  split.
  { intros k src Hin. unfold WIFI_FIELDS in Hin.
    repeat (apply elem_of_cons in Hin as [[= -> ->]|Hin];
            [by simplify_map_eq |]).
    by apply elem_of_nil in Hin. }
  split.
  { by simplify_map_eq. }
  intros Hnone. unfold wifi_of in Hwifi. rewrite Hnone in Hwifi. congruence.
Qed.

End StatusProperties.

Lemma get_status_fixed_fields_witness :
  ∃ snap,
    (get_status (status_service (PDict sparse_status)) "HP7-0001"
       (mkSt logged_in_api tt [])).1 = Ok snap
    ∧ dom snap = SNAPSHOT_KEYS
    ∧ snap !! "name"%string = Some (PStr "Front door")
    ∧ snap !! "ssid"%string = Some PNone
    ∧ snap !! "local_ip"%string = Some PNone.
Proof.
  destruct (get_status_fixed_fields (status_service (PDict sparse_status))
              "HP7-0001" (mkSt logged_in_api tt []) a_client sparse_status ∅ tt
              eq_refl eq_refl eq_refl)
    as (snap & _ & Hrun & Hdom & Hstatus & Hwifi & Hip & _).
  exists snap. rewrite Hrun. split; [reflexivity |]. split; [exact Hdom |].
  split; [| split].
  - rewrite (Hstatus "name" "name")%string; [reflexivity |].
    apply (bool_decide_unpack _). vm_compute. exact I.
  - rewrite (Hwifi "ssid" "ssid")%string; [reflexivity |].
    apply (bool_decide_unpack _). vm_compute. exact I.
  - rewrite Hip. reflexivity.
Defined.

(** C5, as it is worded, fails.  In a status whose [WIFI] entry is there and
    holds [None], the default of [status.get] is not used and [wifi.get]
    raises inside the [try]: [get_status] returns the empty dictionary, which
    has none of the fourteen keys, and the name the status does hold is not
    in it. *)
Lemma null_wifi_gives_no_snapshot :
  ∃ snap,
    (get_status (status_service (PDict null_wifi_status)) "HP7-0001"
       (mkSt logged_in_api tt [])).1 = Ok snap
    ∧ normalize_status (PDict null_wifi_status) = Raise AttributeError
    ∧ null_wifi_status !! "name"%string = Some (PStr "Front door")
    ∧ snap !! "name"%string = None
    ∧ dom snap ≠ SNAPSHOT_KEYS.
Proof.
  exists ∅. split; [vm_compute; reflexivity |].
  split; [vm_compute; reflexivity |].
  split; [vm_compute; reflexivity |].
  split; [reflexivity |].
  rewrite dom_empty_L. intros Heq.
  assert ("name"%string ∈ SNAPSHOT_KEYS) as Hin
    by (unfold SNAPSHOT_KEYS; simpl; set_solver).
  rewrite <- Heq in Hin. set_solver.
Qed.

(** ** The motion sensor *)

Lemma normalize_status_has_no_raw_key (cam_status : pyval)
    (snap : gmap string pyval) :
  normalize_status cam_status = Ok snap →
  snap !! "Motion_Trigger"%string = None
  ∧ ∃ cs, cam_status = PDict cs
          ∧ snap !! "motion"%string
            = Some (default PNone (cs !! "Motion_Trigger"%string)).
Proof.
  destruct cam_status as [| | | | | |cs]; try discriminate.
  destruct (wifi_of cs) as [wifi|] eqn:Hwifi.
  - rewrite (normalize_status_dict cs wifi Hwifi). intros [= <-].
    split; [by simplify_map_eq |]. exists cs. split; [done |].
    by simplify_map_eq.
  - by rewrite (normalize_status_bad_wifi cs Hwifi).
Qed.

(** Whatever status the device reports, the motion binary sensor reads
    false from the snapshot made of it. *)
Lemma motion_sensor_always_off (cam_status : pyval)
    (snap : gmap string pyval) :
  normalize_status cam_status = Ok snap →
  Hp7BinarySimple_is_on "Motion_Trigger" (Some snap) = false.
Proof.
  intros [Hraw _]%normalize_status_has_no_raw_key.
  unfold Hp7BinarySimple_is_on, dict_get; simpl. by rewrite Hraw.
Qed.

(** C3, on the code.  The device reports [Motion_Trigger = 1]; setup succeeds
    and the snapshot holds the value under the key [motion], where the motion
    sensor of [sensor.py] finds it; the binary sensor of [SIMPLE_MAP] looks
    the snapshot up under [Motion_Trigger], finds nothing and reads false. *)
Theorem motion_binary_sensor_reads_false :
  ∃ api coordinator,
    async_setup_entry
      (status_service (PDict {[ "Motion_Trigger"%string := PInt 1 ]}))
      an_entry tt
    = (Ok (api, coordinator), tt)
    ∧ dict_get (data_or_empty (data coordinator)) "motion" = PInt 1
    ∧ _to_bool (dict_get (data_or_empty (data coordinator)) "motion") = true
    ∧ map (fun e => Hp7BinarySimple_is_on e.1.1 (data coordinator)) SIMPLE_MAP
      = [false].
Proof. do 2 eexists. vm_compute. repeat split. Qed.

Example motion_binary_sensor_off_on_zero :
  ∃ api coordinator,
    async_setup_entry
      (status_service (PDict {[ "Motion_Trigger"%string := PInt 0 ]}))
      an_entry tt
    = (Ok (api, coordinator), tt)
    ∧ map (fun e => Hp7BinarySimple_is_on e.1.1 (data coordinator)) SIMPLE_MAP
      = [false].
Proof. do 2 eexists. vm_compute. repeat split. Qed.

(** ** Polling *)

Section PollingProperties.
Context {W : Type} (svc : DeviceService W).

Lemma get_status_raises_only_from_ensure_client (serial : string)
    (st st' : St W) (e : exc) :
  get_status svc serial st = (Raise e, st') →
  e = RuntimeError ∧ ensure_client svc st = (Raise RuntimeError, st').
Proof.
  unfold get_status, bind.
  destruct (ensure_client svc st) as [[[]|e1] st1] eqn:Hens.
  - unfold get_self; simpl.
    destruct (_client (self st1)) as [c|]; [| discriminate].
    unfold try_except, bind, call; simpl.
    destruct (svc_status _ _ _ _) as [[cam|e2] w1]; simpl; [| discriminate].
    destruct (normalize_status cam); simpl; discriminate.
  - intros [= <- <-].
    assert (e1 = RuntimeError) as ->; [| done].
    revert Hens. unfold ensure_client, bind, get_self; simpl.
    destruct (_client (self st)); [discriminate |].
    unfold try_except.
    match goal with |- (match ?body with _ => _ end) = _ → _ =>
      destruct body as [[u|e2] st2]; simpl
    end; [discriminate |].
    by intros [= <- _].
Qed.

(** C2, as the code has it.  When the status request of a periodic fetch
    raises, whatever the error, [get_status] returns the empty dictionary: the
    refresh raises nothing and replaces the stored snapshot by the empty one,
    from which every entity reads [None].  When an error does leave
    [get_status], which is then the [RuntimeError] of [ensure_client], the
    periodic refresh keeps the stored snapshot and the first refresh raises
    the not-ready error. *)
Theorem failed_fetch_empties_snapshot (coordinator : Hp7Coordinator)
    (st : St W) (c : EzvizClient) (e : exc) (w' : W) :
  _client (self st) = Some c →
  svc_status svc c (serial coordinator) (world st) = (Raise e, w') →
  let st' := mkSt (self st) w' (calls st ++ [CallStatus (serial coordinator)]) in
  let emptied := {| serial := serial coordinator; data := Some ∅;
                    last_update_success := true |} in
  get_status svc (serial coordinator) st = (Ok ∅, st')
  ∧ async_refresh svc coordinator st = (Ok emptied, st')
  ∧ (∀ key, dict_get (data_or_empty (data emptied)) key = PNone)
  ∧ (∀ (s0 s1 : St W) (e0 : exc),
       get_status svc (serial coordinator) s0 = (Raise e0, s1) →
       ensure_client svc s0 = (Raise RuntimeError, s1)
       ∧ async_refresh svc coordinator s0
         = (Ok {| serial := serial coordinator; data := data coordinator;
                  last_update_success := false |}, s1)
       ∧ async_config_entry_first_refresh svc coordinator s0
         = (Raise ConfigEntryNotReady, s1)).
Proof.
  intros Hc Hstatus st' emptied.
  assert (get_status svc (serial coordinator) st = (Ok ∅, st')) as Hget.
  { unfold get_status, bind. rewrite (ensure_client_ready svc st c Hc).
    unfold get_self; simpl. rewrite Hc.
    unfold try_except, bind, call; simpl. by rewrite Hstatus. }
  split; [exact Hget |].
  unfold async_refresh, async_config_entry_first_refresh, _async_update_data.
  rewrite Hget. split; [done |]. split; [done |].
  intros s0 s1 e0 Hraise.
  split; [apply (get_status_raises_only_from_ensure_client _ _ _ _ Hraise) |].
  by rewrite Hraise.
Qed.

End PollingProperties.

Lemma failed_fetch_empties_snapshot_witness :
  async_refresh flaky_service hp7_coordinator (mkSt logged_in_api 1%nat [])
  = (Ok {| serial := "HP7-0001"; data := Some ∅; last_update_success := true |},
     mkSt logged_in_api 2%nat [CallStatus "HP7-0001"]).
Proof.
  apply (failed_fetch_empties_snapshot flaky_service hp7_coordinator
           (mkSt logged_in_api 1%nat []) a_client
           (OtherError "ConnectionError") 2%nat eq_refl eq_refl).
Defined.

(** C2, as it is worded, fails.  The first poll succeeds and the second one
    fails: setup is ready with the first snapshot, and the refresh after it
    raises nothing but stores the empty snapshot, so the name read before is
    gone. *)
Lemma failed_poll_loses_snapshot :
  ∃ api first second st,
    async_setup_entry flaky_service an_entry 0%nat = (Ok (api, first), 1%nat)
    ∧ async_refresh flaky_service first (mkSt api 1%nat []) = (Ok second, st)
    ∧ dict_get (data_or_empty (data first)) "name" = PStr "Front door"
    ∧ dict_get (data_or_empty (data second)) "name" = PNone
    ∧ data second ≠ data first.
Proof. do 4 eexists. vm_compute. repeat split. discriminate. Qed.

(** The catch of [get_status] also reaches the first poll: when that one
    fails, setup returns with the empty snapshot, and the handler that
    [async_setup_entry] has for a failed first refresh is not reached. *)
Example failed_first_poll_sets_up :
  ∃ api first,
    async_setup_entry flaky_service an_entry 1%nat = (Ok (api, first), 2%nat)
    ∧ data first = Some ∅.
Proof. do 2 eexists. vm_compute. repeat split. Qed.

(** * Further properties of the code *)

(** ** Sessions *)

Section SessionProperties.
Context {W : Type} (svc : DeviceService W).

Lemma ensure_client_new_fails (st : St W) (e : exc) (w1 : W) :
  _client (self st) = None →
  svc_new svc (client_of (self st)) (world st) = (Raise e, w1) →
  ensure_client svc st
  = (Raise RuntimeError,
     mkSt (self st) w1 (calls st ++ [CallNew (client_of (self st))])).
Proof.
  intros Hc Hnew. unfold ensure_client, bind, get_self; simpl. rewrite Hc.
  unfold try_except, bind, call; simpl. fold (client_of (self st)).
  by rewrite Hnew.
Qed.

Lemma ensure_client_cached_token (st : St W) (w1 : W) :
  _client (self st) = None →
  token_falsy (_token (self st)) = false →
  svc_new svc (client_of (self st)) (world st) = (Ok tt, w1) →
  ensure_client svc st
  = (Ok tt,
     mkSt (set_client (Some (client_of (self st))) (self st)) w1
       (calls st ++ [CallNew (client_of (self st))])).
Proof.
  intros Hc Htok Hnew. unfold ensure_client, bind, get_self; simpl. rewrite Hc.
  unfold try_except, bind, call, modify_self; simpl.
  fold (client_of (self st)). by rewrite Hnew, Htok.
Qed.

Lemma ensure_client_login (st : St W) (w1 w2 : W)
    (r : result (option (gmap string pyval))) :
  _client (self st) = None →
  token_falsy (_token (self st)) = true →
  svc_new svc (client_of (self st)) (world st) = (Ok tt, w1) →
  svc_login svc (client_of (self st)) w1 = (r, w2) →
  ensure_client svc st
  = let c := client_of (self st) in
    let called := calls st ++ [CallNew c; CallLogin] in
    match r with
    | Ok t => (Ok tt, mkSt (set_token t (set_client (Some c) (self st))) w2 called)
    | Raise _ => (Raise RuntimeError, mkSt (set_client (Some c) (self st)) w2 called)
    end.
Proof.
  intros Hc Htok Hnew Hlogin.
  unfold ensure_client, bind, get_self; simpl. rewrite Hc.
  unfold try_except, bind, call, modify_self; simpl.
  fold (client_of (self st)). rewrite Hnew, Htok. simpl.
  unfold _login_and_store_token, bind, get_self, try_except, call, modify_self;
    simpl.
  rewrite Hlogin. rewrite <- app_assoc. simpl.
  destruct r as [t|e]; simpl; [done |].
  by destruct (value_or_key_error e).
Qed.

(** X1. Whatever goes wrong while the client is built or logged in, the error
    that leaves [ensure_client] is [RuntimeError]; this only happens on an
    object that had no client, and the stored token, the credentials and the
    capability flags are then as before. *)
Theorem ensure_client_raises_runtime_error (st st' : St W) (e : exc) :
  ensure_client svc st = (Raise e, st') →
  e = RuntimeError
  ∧ _client (self st) = None
  ∧ _token (self st') = _token (self st)
  ∧ _username (self st') = _username (self st)
  ∧ _url (self st') = _url (self st)
  ∧ supports_door (self st') = supports_door (self st)
  ∧ supports_gate (self st') = supports_gate (self st).
Proof.
  destruct (_client (self st)) as [c|] eqn:Hc.
  { by rewrite (ensure_client_ready svc st c Hc). }
  destruct (svc_new svc (client_of (self st)) (world st)) as [[[]|e1] w1] eqn:Hnew.
  - destruct (token_falsy (_token (self st))) eqn:Htok.
    + destruct (svc_login svc (client_of (self st)) w1) as [r w2] eqn:Hlogin.
      rewrite (ensure_client_login st w1 w2 r Hc Htok Hnew Hlogin).
      destruct r; simpl; [discriminate |]. by intros [= <- <-].
    + by rewrite (ensure_client_cached_token st w1 Hc Htok Hnew).
  - rewrite (ensure_client_new_fails st e1 w1 Hc Hnew). by intros [= <- <-].
Qed.

(** X2. A login that is refused leaves the new client on the object.  The
    next [ensure_client] then finds a client and returns at once: the login
    is not tried again, whatever the device service would answer now, and the
    object stays without a token. *)
Theorem refused_login_is_not_retried (st : St W) (w1 w2 : W) (e : exc) :
  _client (self st) = None →
  token_falsy (_token (self st)) = true →
  svc_new svc (client_of (self st)) (world st) = (Ok tt, w1) →
  svc_login svc (client_of (self st)) w1 = (Raise e, w2) →
  ∃ st1,
    ensure_client svc st = (Raise RuntimeError, st1)
    ∧ _client (self st1) = Some (client_of (self st))
    ∧ _token (self st1) = _token (self st)
    ∧ calls st1 = calls st ++ [CallNew (client_of (self st)); CallLogin]
    ∧ ∀ (w : W) (cs : list Call),
        ensure_client svc (mkSt (self st1) w cs) = (Ok tt, mkSt (self st1) w cs).
Proof.
  intros Hc Htok Hnew Hlogin. eexists.
  rewrite (ensure_client_login st w1 w2 _ Hc Htok Hnew Hlogin). simpl.
  split; [reflexivity |]. simpl. split; [done |]. split; [done |].
  split; [done |].
  intros w cs. by apply (ensure_client_ready svc _ (client_of (self st))).
Qed.

(** X3. With a cached token that is not empty, [ensure_client] builds the
    client from the stored user name, password, endpoint and token and makes
    no login call; the token stays the cached one. *)
Theorem cached_token_skips_login (st : St W) (w1 : W) :
  _client (self st) = None →
  token_falsy (_token (self st)) = false →
  svc_new svc (client_of (self st)) (world st) = (Ok tt, w1) →
  ∃ st1,
    ensure_client svc st = (Ok tt, st1)
    ∧ _client (self st1)
      = Some {| account := _username (self st); password := _password (self st);
                url := _url (self st); token := _token (self st) |}
    ∧ _token (self st1) = _token (self st)
    ∧ calls st1 = calls st ++ [CallNew (client_of (self st))].
Proof.
  intros Hc Htok Hnew. eexists.
  rewrite (ensure_client_cached_token st w1 Hc Htok Hnew).
  split; [reflexivity |]. simpl. by repeat split.
Qed.

(** X4. [close] never raises, also when the logout does: it makes one logout
    call when there is a client and none otherwise, leaves the object without
    a client, and keeps the token and everything else. *)
Theorem close_drops_client (st : St W) :
  ∃ st1,
    close svc st = (Ok tt, st1)
    ∧ _client (self st1) = None
    ∧ self st1 = set_client None (self st)
    ∧ calls st1
      = calls st ++ match _client (self st) with
                    | Some _ => [CallLogout]
                    | None => []
                    end.
Proof.
  unfold close, bind, get_self; simpl.
  destruct (_client (self st)) as [c|] eqn:Hc.
  - unfold try_except, call, modify_self, ret; simpl.
    destruct (svc_logout svc c (world st)) as [[[]|e] w1]; simpl;
      eexists; repeat split.
  - unfold ret. eexists. split; [reflexivity |]. rewrite app_nil_r.
    repeat split; [done |]. destruct st as [[] ? ?]; simpl in *. by subst.
Qed.

End SessionProperties.

(** ** What the methods keep *)

Section Preservation.
Context {W : Type} (svc : DeviceService W).
Context (P : Hp7Api → Prop).

Lemma preserves_ret {A} (a : A) : preserves P (ret (W:=W) a).
Proof. by intros st. Qed.

Lemma preserves_raise {A} (e : exc) : preserves P (raise (W:=W) (A:=A) e).
Proof. by intros st. Qed.

Lemma preserves_get_self : preserves P (get_self (W:=W)).
Proof. by intros st. Qed.

Lemma preserves_call {A} (c : Call) (f : W → result A * W) :
  preserves P (call c f).
Proof. intros st H. unfold call. by destruct (f (world st)). Qed.

Lemma preserves_lift {A} (r : result A) :
  preserves P (fun st : St W => (r, st)).
Proof. by intros st. Qed.

Lemma preserves_modify (f : Hp7Api → Hp7Api) :
  (∀ a, P a → P (f a)) → preserves P (modify_self (W:=W) f).
Proof. intros Hf st H. by apply Hf. Qed.

Lemma preserves_bind {A B} (m : M W A) (k : A → M W B) :
  preserves P m → (∀ a, preserves P (k a)) → preserves P (bind m k).
Proof.
  intros Hm Hk st H. unfold bind. specialize (Hm st H).
  destruct (m st) as [[a|e] st1]; simpl in *; [by apply Hk | done].
Qed.

Lemma preserves_try_except {A} (m : M W A) (catches : exc → bool)
    (handler : exc → M W A) :
  preserves P m → (∀ e, preserves P (handler e)) →
  preserves P (try_except m catches handler).
Proof.
  intros Hm Hh st H. unfold try_except. specialize (Hm st H).
  destruct (m st) as [[a|e] st1]; simpl in *; [done |].
  destruct (catches e); [by apply Hh | done].
Qed.

Hypothesis HP : kept_by_writes P.

Lemma preserves_login_and_store_token :
  preserves P (_login_and_store_token svc).
Proof.
  unfold _login_and_store_token. apply preserves_bind; [apply preserves_get_self |].
  intros a. destruct (_client a); [| apply preserves_raise].
  apply preserves_try_except; [| intros; apply preserves_raise].
  apply preserves_bind; [apply preserves_call |].
  intros t. apply preserves_modify. apply HP.
Qed.

Lemma preserves_ensure_client : preserves P (ensure_client svc).
Proof.
  unfold ensure_client. apply preserves_bind; [apply preserves_get_self |].
  intros a. destruct (_client a); [apply preserves_ret |].
  apply preserves_try_except; [| intros; apply preserves_raise].
  apply preserves_bind; [apply preserves_call |]. intros _.
  apply preserves_bind; [apply preserves_modify, HP |]. intros _.
  destruct (token_falsy _);
    [apply preserves_login_and_store_token | apply preserves_ret].
Qed.

Lemma preserves_login : preserves P (login svc).
Proof.
  unfold login. apply preserves_bind; [apply preserves_ensure_client |].
  intros; apply preserves_ret.
Qed.

Lemma preserves_detect_capabilities serial :
  preserves P (detect_capabilities svc serial).
Proof.
  unfold detect_capabilities.
  apply preserves_bind; [apply preserves_ensure_client |]. intros _.
  apply preserves_bind; [| intros; apply preserves_modify, HP].
  apply preserves_try_except; [| intros; apply preserves_ret].
  apply preserves_bind; [apply preserves_get_self |].
  intros a. destruct (_client a); [| apply preserves_ret].
  apply preserves_bind; [apply preserves_call |]. intros infos.
  apply preserves_bind; [apply preserves_lift |]. intros; apply preserves_ret.
Qed.

Lemma preserves_try_unlock serial lock_no :
  preserves P (_try_unlock svc serial lock_no).
Proof.
  unfold _try_unlock.
  apply preserves_bind; [apply preserves_ensure_client |]. intros _.
  apply preserves_bind; [apply preserves_get_self |]. intros a.
  destruct (_token a) as [tok|]; [| apply preserves_ret].
  destruct (_client a) as [c|]; [| apply preserves_ret].
  destruct (token_falsy _); [apply preserves_ret |].
  apply preserves_try_except; [| intros; apply preserves_ret].
  apply preserves_bind; [apply preserves_call |]. intros; apply preserves_ret.
Qed.

Lemma preserves_or_else (m1 m2 : M W bool) :
  preserves P m1 → preserves P m2 → preserves P (or_else m1 m2).
Proof.
  intros H1 H2. unfold or_else. apply preserves_bind; [done |].
  intros []; [apply preserves_ret | done].
Qed.

Lemma preserves_unlock_door serial : preserves P (unlock_door svc serial).
Proof. apply preserves_or_else; apply preserves_try_unlock. Qed.

Lemma preserves_unlock_gate serial : preserves P (unlock_gate svc serial).
Proof. apply preserves_or_else; apply preserves_try_unlock. Qed.

Lemma preserves_get_status serial : preserves P (get_status svc serial).
Proof.
  unfold get_status.
  apply preserves_bind; [apply preserves_ensure_client |]. intros _.
  apply preserves_bind; [apply preserves_get_self |]. intros a.
  destruct (_client a); [| apply preserves_ret].
  apply preserves_try_except; [| intros; apply preserves_ret].
  apply preserves_bind; [apply preserves_call |]. intros cam.
  apply preserves_lift.
Qed.

Lemma preserves_close :
  (∀ a, P a → P (set_client None a)) → preserves P (close svc).
Proof.
  intros Hnone st H. unfold close, bind, get_self; simpl.
  destruct (_client (self st)) as [c|]; [| done].
  unfold try_except, call, modify_self, ret; simpl.
  destruct (svc_logout svc c (world st)) as [[[]|e] w1]; simpl; by apply Hnone.
Qed.

End Preservation.

Lemma capabilities_kept_by_writes : kept_by_writes capabilities_on.
Proof. by repeat split; intros; destruct H. Qed.

Lemma client_kept_by_writes : kept_by_writes (fun a => is_Some (_client a)).
Proof. repeat split; simpl; eauto. Qed.

Section SessionInvariants.
Context {W : Type} (svc : DeviceService W).

(** X5. No method of the API object ever clears a capability flag: after any
    sequence of logins, capability detections, unlocks, status requests and
    closes, whatever they return or raise, an object with both flags set has
    both flags set. *)
Theorem capabilities_never_cleared (st : St W) (ms : list Method) :
  capabilities_on (self st) →
  capabilities_on (self (run_methods svc st ms)).
Proof.
  revert st. induction ms as [|m ms IH]; intros st H; simpl; [done |].
  apply IH. pose proof capabilities_kept_by_writes as HP.
  destruct m; simpl.
  - by apply preserves_login.
  - by apply preserves_detect_capabilities.
  - apply preserves_close; [| done]. by intros a [].
  - by apply preserves_unlock_door.
  - by apply preserves_unlock_gate.
  - by apply preserves_get_status.
Qed.

Lemma try_unlock_with_client (serial : string) (lock_no : Z) (st : St W) :
  is_Some (_client (self st)) →
  ∃ b st', _try_unlock svc serial lock_no st = (Ok b, st')
           ∧ self st' = self st.
Proof.
  intros [c Hc]. unfold _try_unlock, bind.
  rewrite (ensure_client_ready svc st c Hc). unfold get_self; simpl.
  rewrite Hc.
  destruct (_token (self st)) as [tok|];
    [| do 2 eexists; split; reflexivity].
  cbv beta iota.
  destruct (bool_decide (tok = ∅)); [do 2 eexists; split; reflexivity |].
  unfold try_except, bind, call, ret; simpl.
  destruct (svc_remote_unlock _ _ _ _ _ _) as [[[]|e] w1]; simpl;
    do 2 eexists; split; reflexivity.
Qed.

Lemma unlock_with_client (serial : string) (p f : Z) (st : St W) :
  is_Some (_client (self st)) →
  ∃ b st', or_else (_try_unlock svc serial p) (_try_unlock svc serial f) st
           = (Ok b, st')
           ∧ self st' = self st.
Proof.
  intros Hc. unfold or_else, bind.
  destruct (try_unlock_with_client serial p st Hc) as (b & st1 & -> & Hself).
  destruct b; [do 2 eexists; split; [reflexivity | done] |].
  rewrite <- Hself in Hc.
  destruct (try_unlock_with_client serial f st1 Hc) as (b2 & st2 & -> & Hself2).
  do 2 eexists. split; [done |]. congruence.
Qed.

Lemma setup_gives_session (entry : ConfigEntry) (w w' : W) (api : Hp7Api)
    (coordinator : Hp7Coordinator) :
  async_setup_entry svc entry w = (Ok (api, coordinator), w') →
  is_Some (_client api) ∧ capabilities_on api.
Proof.
  unfold async_setup_entry.
  destruct (Hp7Api_init _ _ _ _) as [api0|] eqn:Hinit; [| discriminate].
  assert (capabilities_on api0) as Hcap0.
  { unfold Hp7Api_init in Hinit.
    destruct (py_getitem _ _); simpl in Hinit; [| discriminate].
    injection Hinit as <-. by split. }
  set (st0 := mkSt api0 w []).
  unfold bind at 1. unfold try_except at 1. unfold bind at 1.
  pose proof (preserves_login svc _ capabilities_kept_by_writes st0 Hcap0)
    as Hcap1.
  destruct (login svc st0) as [[b|e] st1] eqn:Hlogin; simpl in *;
    [| discriminate].
  assert (is_Some (_client (self st1))) as Hcl1.
  { revert Hlogin. unfold login, bind.
    destruct (ensure_client svc st0) as [[u|e] s] eqn:Hens; [| discriminate].
    intros [= _ <-]. by apply (ensure_client_gives_client svc st0 s u). }
  pose proof (preserves_detect_capabilities svc _ capabilities_kept_by_writes
                (entry_serial entry) st1 Hcap1) as Hcap2.
  pose proof (preserves_detect_capabilities svc _ client_kept_by_writes
                (entry_serial entry) st1 Hcl1) as Hcl2.
  destruct (detect_capabilities svc (entry_serial entry) st1)
    as [[u|e] st2]; simpl in *; [| discriminate].
  unfold try_except, async_config_entry_first_refresh, _async_update_data.
  pose proof (preserves_get_status svc _ capabilities_kept_by_writes
                (entry_serial entry) st2 Hcap2) as Hcap3.
  pose proof (preserves_get_status svc _ client_kept_by_writes
                (entry_serial entry) st2 Hcl2) as Hcl3.
  simpl.
  destruct (get_status svc (entry_serial entry) st2) as [[d|e] st3]; simpl in *;
    [| discriminate].
  by intros [= <- _ _].
Qed.

(** X6. When setup has succeeded, the API object it stores has a client and
    both capability flags set, so the button platform adds exactly the gate
    button and the door button, in this order. *)
Theorem setup_adds_both_buttons (entry : ConfigEntry) (w w' : W)
    (api : Hp7Api) (coordinator : Hp7Coordinator) :
  async_setup_entry svc entry w = (Ok (api, coordinator), w') →
  button_async_setup_entry api = ["unlock_gate"; "unlock_door"]%string
  ∧ is_Some (_client api).
Proof.
  intros [Hc [Hdoor Hgate]]%setup_gives_session.
  unfold button_async_setup_entry. by rewrite Hdoor, Hgate.
Qed.

(** X7. When setup has succeeded, pressing a button never raises, whatever
    the device service does and also when the stored token is empty: the
    press returns, and the object is as before.  The first record the press
    logs is the debug record of the press.  A button of another action than
    the two unlocks logs that record only and does nothing else: no call is
    made. *)
Theorem press_after_setup_never_raises (entry : ConfigEntry) (w w' : W)
    (api : Hp7Api) (coordinator : Hp7Coordinator)
    (action serial : string) (w2 : W) (cs : list Call) :
  async_setup_entry svc entry w = (Ok (api, coordinator), w') →
  ∃ records st',
    async_press svc action serial (mkSt api w2 cs) = (records, (Ok tt, st'))
    ∧ self st' = api
    ∧ head records = Some (log_pressed action serial)
    ∧ (action ≠ "unlock_gate"%string → action ≠ "unlock_door"%string →
       records = [log_pressed action serial] ∧ st' = mkSt api w2 cs).
Proof.
  intros [Hc _]%setup_gives_session. unfold async_press.
  case_bool_decide as Hgate.
  - unfold unlock_gate.
    destruct (unlock_with_client serial DEFAULT_GATE_LOCK_NO
                DEFAULT_DOOR_LOCK_NO (mkSt api w2 cs) Hc)
      as (b & st1 & -> & Hself).
    do 2 eexists. split; [reflexivity |]. split; [done |].
    split; [done |]. by intros ?.
  - case_bool_decide as Hdoor.
    + unfold unlock_door.
      destruct (unlock_with_client serial DEFAULT_DOOR_LOCK_NO
                  DEFAULT_GATE_LOCK_NO (mkSt api w2 cs) Hc)
        as (b & st1 & -> & Hself).
      do 2 eexists. split; [reflexivity |]. split; [done |].
      split; [done |]. by intros ? ?.
    + do 2 eexists. by repeat split.
Qed.

(** X8. The two [try] blocks of setup, lines 37 to 50 of [__init__.py], let
    no exception but the not-ready error out: every failure of the
    construction of the API object, of the login, of the capability detection
    or of the first refresh is raised as [ConfigEntryNotReady].  The reads of
    [entry.data] before them and the forwarding to the platforms after them
    are outside this statement. *)
Theorem setup_raises_only_not_ready (entry : ConfigEntry) (w w' : W)
    (e : exc) :
  async_setup_entry svc entry w = (Raise e, w') → e = ConfigEntryNotReady.
Proof.
  unfold async_setup_entry.
  destruct (Hp7Api_init _ _ _ _) as [api0|]; [| by intros [= <- _]].
  unfold bind at 1. unfold try_except at 1.
  destruct (bind (login svc) _ _) as [[u|e1] st1]; simpl.
  - unfold try_except.
    destruct (async_config_entry_first_refresh svc _ st1) as [[c|e2] st2];
      simpl; [discriminate | by intros [= <- _]].
  - by intros [= <- _].
Qed.

End SessionInvariants.

(** ** Status requests and device listings *)

Lemma normalize_status_keys (cam_status : pyval) (snap : gmap string pyval) :
  normalize_status cam_status = Ok snap → dom snap = SNAPSHOT_KEYS.
Proof.
  destruct cam_status as [| | | | | |cs]; try discriminate.
  destruct (wifi_of cs) as [wifi|] eqn:Hwifi.
  - rewrite (normalize_status_dict cs wifi Hwifi). intros [= <-].
    rewrite !dom_insert_L, dom_empty_L. unfold SNAPSHOT_KEYS. simpl.
    set_solver.
  - by rewrite (normalize_status_bad_wifi cs Hwifi).
Qed.

Lemma device_name_of_dict (d : gmap string pyval) :
  device_name_of (PDict d) = Ok (listed_name d).
Proof.
  unfold device_name_of, listed_name, py_or, dict_get. simpl.
  destruct (py_truthy (default PNone (d !! "name"%string))); [done |].
  by destruct (py_truthy (default PNone (d !! "deviceName"%string))).
Qed.

Lemma listed_name_truthy (d : gmap string pyval) :
  py_truthy (listed_name d) = true.
Proof.
  unfold listed_name, py_or.
  destruct (py_truthy (dict_get d "name")) eqn:H1; [done |].
  by destruct (py_truthy (dict_get d "deviceName")) eqn:H2.
Qed.

Lemma collect_devices_spec (ds : gmap string pyval) :
  (map_Forall (fun _ v => is_dict v = true) ds
   ∧ collect_devices (PDict ds) = Ok (listed_entry <$> ds))
  ∨ (¬ map_Forall (fun _ v => is_dict v = true) ds
     ∧ collect_devices (PDict ds) = Raise AttributeError).
Proof.
  unfold collect_devices.
  apply (map_fold_weak_ind
           (fun r m =>
              (map_Forall (fun _ v => is_dict v = true) m
               ∧ r = Ok (listed_entry <$> m))
              ∨ (¬ map_Forall (fun _ v => is_dict v = true) m
                 ∧ r = Raise AttributeError))).
  - left. split; [apply map_Forall_empty | by rewrite fmap_empty].
  - intros i x m r Hi [[Hall ->]|[Hnot ->]]; simpl.
    + destruct x as [| | | | | |d];
        try (right; split; [| done];
             intros Hins; apply map_Forall_insert in Hins as [? _]; done).
      left. split; [by apply map_Forall_insert |].
      rewrite device_name_of_dict. simpl. by rewrite fmap_insert.
    + right. split; [| done].
      intros Hins. apply map_Forall_insert in Hins as [_ ?]; done.
Qed.

Section StatusAndListing.
Context {W : Type} (svc : DeviceService W).
Context (get_all_device_infos : EzvizClient → M W pyval).

(** X9. With a client on the object, [get_status] never raises and never
    touches the object: it makes exactly one status call and returns either
    the empty dictionary or a dictionary with exactly the fourteen snapshot
    keys, never anything in between. *)
Theorem get_status_all_or_nothing (serial : string) (st : St W)
    (c : EzvizClient) :
  _client (self st) = Some c →
  ∃ snap,
    get_status svc serial st
    = (Ok snap,
       mkSt (self st) (svc_status svc c serial (world st)).2
         (calls st ++ [CallStatus serial]))
    ∧ (snap = ∅ ∨ dom snap = SNAPSHOT_KEYS).
Proof.
  intros Hc. unfold get_status, bind.
  rewrite (ensure_client_ready svc st c Hc). unfold get_self; simpl.
  rewrite Hc. unfold try_except, bind, call, ret; simpl.
  destruct (svc_status svc c serial (world st)) as [[cam|e] w1]; simpl.
  - destruct (normalize_status cam) as [snap|e] eqn:Hnorm; simpl.
    + exists snap. split; [done |]. right. by apply normalize_status_keys in Hnorm.
    + exists ∅. split; [done |]. by left.
  - exists ∅. split; [done |]. by left.
Qed.

(** X10. When the listing of the device client is a dictionary of device
    records, [list_devices] returns one entry per serial of the listing, and
    each entry holds nothing but a [device_name]: the record's [name], else
    its [deviceName], else the word [Device]; the name is never an empty or
    null value. *)
Theorem list_devices_names (st st1 : St W) (c : EzvizClient)
    (ds : gmap string pyval) :
  _client (self st) = Some c →
  get_all_device_infos c st = (Ok (PDict ds), st1) →
  map_Forall (fun _ v => is_dict v = true) ds →
  ∃ listed,
    list_devices svc get_all_device_infos st = (Ok listed, st1)
    ∧ dom listed = dom ds
    ∧ (∀ serial d, ds !! serial = Some (PDict d) →
         listed !! serial
         = Some {[ "device_name"%string :=
                     py_or (dict_get d "name")
                       (py_or (dict_get d "deviceName") (PStr "Device")) ]})
    ∧ (∀ serial entry, listed !! serial = Some entry →
         ∃ name, entry = {[ "device_name"%string := name ]}
                 ∧ py_truthy name = true).
Proof.
  intros Hc Hfetch Hall. exists (listed_entry <$> ds).
  split.
  { unfold list_devices, bind. rewrite (ensure_client_ready svc st c Hc).
    unfold get_self; simpl. rewrite Hc.
    unfold try_except, bind, ret; simpl. rewrite Hfetch. cbv beta iota.
    destruct (collect_devices_spec ds) as [[_ ->]|[Hnot _]]; [done |].
    by destruct Hnot. }
  split; [apply dom_fmap_L |].
  split.
  { intros serial d Hd. by rewrite lookup_fmap, Hd. }
  intros serial entry. rewrite lookup_fmap.
  destruct (ds !! serial) as [v|] eqn:Hv; [| discriminate].
  intros [= <-]. specialize (Hall serial v Hv).
  destruct v as [| | | | | |d]; try discriminate.
  exists (listed_name d). split; [done | apply listed_name_truthy].
Qed.

(** X11. When the listing call raises [KeyError], [AttributeError] or
    [ValueError], [list_devices] returns the empty dictionary; any other
    error of the call leaves [list_devices] as it is, not wrapped. *)
Theorem list_devices_on_error (st st1 : St W) (c : EzvizClient) (e : exc) :
  _client (self st) = Some c →
  get_all_device_infos c st = (Raise e, st1) →
  list_devices svc get_all_device_infos st
  = (if key_attribute_value_error e then Ok ∅ else Raise e, st1).
Proof.
  intros Hc Hfetch. unfold list_devices, bind.
  rewrite (ensure_client_ready svc st c Hc). unfold get_self; simpl.
  rewrite Hc. unfold try_except, bind, ret; simpl. rewrite Hfetch. simpl.
  by destruct (key_attribute_value_error e).
Qed.

(** X12. A listing that is no dictionary, or that holds a record that is no
    dictionary, makes [list_devices] raise [AttributeError]: the loop over
    the listing is outside the [try]. *)
Theorem list_devices_malformed (st st1 : St W) (c : EzvizClient)
    (devices : pyval) :
  _client (self st) = Some c →
  get_all_device_infos c st = (Ok devices, st1) →
  (is_dict devices = false
   ∨ ∃ ds serial v, devices = PDict ds ∧ ds !! serial = Some v
                    ∧ is_dict v = false) →
  list_devices svc get_all_device_infos st = (Raise AttributeError, st1).
Proof.
  intros Hc Hfetch Hbad. unfold list_devices, bind.
  rewrite (ensure_client_ready svc st c Hc). unfold get_self; simpl.
  rewrite Hc. unfold try_except, bind, ret; simpl. rewrite Hfetch.
  cbv beta iota.
  destruct Hbad as [Hnd|(ds & serial & v & -> & Hv & Hnd)].
  - by destruct devices.
  - destruct (collect_devices_spec ds) as [[Hall _]|[_ ->]]; [| done].
    specialize (Hall serial v Hv). simpl in Hall. congruence.
Qed.

End StatusAndListing.

(** ** More on the alarm sensors *)

Lemma alarm_invariant_init (match_values : list string) :
  alarm_invariant match_values (Hp7BinaryAlarm_init match_values).
Proof.
  repeat split; simpl; done.
Qed.

Lemma alarm_invariant_step (match_values : list string) (s : Hp7BinaryAlarm)
    (ev : Event) :
  alarm_invariant match_values s →
  alarm_invariant match_values (handle_event s ev).
Proof.
  intros H. pose proof H as (Hmv & Hnone & Hsome).
  destruct ev as [now d|]; simpl.
  - destruct (alarm_condition s d) eqn:Hd.
    + rewrite (update_when_triggered _ _ _ Hd).
      unfold alarm_condition in Hd.
      apply andb_true_iff in Hd as [[_ Hnn]%andb_true_iff _].
      repeat split; simpl; try done.
      intros _ Heq. unfold alarm_time_of in Heq. by rewrite Heq in Hnn.
    + by rewrite (update_when_idle _ _ _ Hd).
  - repeat split; simpl; try done; try (by apply Hnone); by apply Hsome.
Qed.

(** X13. Whatever coordinator updates and switch-off callbacks an alarm
    sensor has seen since it was built, it has the match values it was built
    with and a consumed alarm time exactly when it has a trigger instant; and
    as long as it has no trigger instant, its [_off_unsub] is [None]. *)
Theorem alarm_sensor_invariant (match_values : list string)
    (events : list Event) :
  let s := deliver (Hp7BinaryAlarm_init match_values) events in
  _match_values s = match_values
  ∧ (_last_trigger s = None ↔ _prev_alarm_time s = PNone)
  ∧ (_last_trigger s = None → _off_unsub s = None).
Proof.
  assert (∀ s0, alarm_invariant match_values s0 →
                alarm_invariant match_values (deliver s0 events)) as Hrun.
  { induction events as [|ev evs IH]; intros s0 H0; simpl; [done |].
    by apply IH, alarm_invariant_step. }
  destruct (Hrun _ (alarm_invariant_init match_values))
    as (Hmv & Hnone & Hsome).
  simpl. split; [done |]. split.
  - split; [by intros [? ?]%Hnone |].
    intros Hp. destruct (_last_trigger _) as [t|] eqn:Ht; [| done].
    by destruct (Hsome (ltac:(eauto))).
  - by intros [? ?]%Hnone.
Qed.

Lemma no_alarm_fields_is_idle (s : Hp7BinaryAlarm)
    (d : option (gmap string pyval)) :
  dict_get (data_or_empty d) ALARM_FIELD = PNone
  ∨ dict_get (data_or_empty d) ALARM_TIME_FIELD = PNone →
  alarm_condition s d = false.
Proof.
  unfold alarm_condition. intros [-> | ->]; simpl; [done |].
  by rewrite andb_false_r.
Qed.

(** X14. A snapshot without an alarm name or without an alarm time, such as
    the empty snapshot of a failed status request or no snapshot at all,
    passes through an alarm sensor without a trace: taking its update out of
    any sequence of events gives the same sensor state. *)
Theorem snapshot_without_alarm_is_ignored (s : Hp7BinaryAlarm)
    (before later : list Event) (now : Z) (d : option (gmap string pyval)) :
  dict_get (data_or_empty d) "alarm_name" = PNone
  ∨ dict_get (data_or_empty d) "last_alarm_time" = PNone →
  deliver s (before ++ CoordinatorUpdate now d :: later)
  = deliver s (before ++ later).
Proof.
  intros Hd. rewrite !deliver_app. simpl.
  by rewrite (update_when_idle _ _ _ (no_alarm_fields_is_idle _ d Hd)).
Qed.

(** X15. The alarm sensors find what the normaliser stores: on the snapshot
    made of a status dictionary, the trigger condition of a sensor is the
    condition on the raw fields [last_alarm_type_name] and
    [last_alarm_time]. *)
Theorem alarm_condition_on_raw_status (s : Hp7BinaryAlarm)
    (cs : gmap string pyval) (snap : gmap string pyval) :
  normalize_status (PDict cs) = Ok snap →
  alarm_condition s (Some snap)
  = py_in_strs (default PNone (cs !! "last_alarm_type_name"%string))
      (_match_values s)
    && negb (is_none (default PNone (cs !! "last_alarm_time"%string)))
    && py_ne (default PNone (cs !! "last_alarm_time"%string))
         (_prev_alarm_time s).
Proof.
  destruct (wifi_of cs) as [wifi|] eqn:Hwifi.
  - rewrite (normalize_status_dict cs wifi Hwifi). intros [= <-].
    unfold alarm_condition, data_or_empty, dict_get, ALARM_FIELD,
      ALARM_TIME_FIELD. simpl.
    by simplify_map_eq.
  - by rewrite (normalize_status_bad_wifi cs Hwifi).
Qed.

(** ** The sensors of sensor.py *)

Lemma split_dot_not_nil (s : string) : split_dot s ≠ [].
Proof.
  induction s as [|c s IH]; simpl; [done |].
  case_bool_decide; [done |]. by destruct (split_dot s).
Qed.

Lemma split_dot_dotless (p : string) : has_dot p = false → split_dot p = [p].
Proof.
  induction p as [|c p IH]; simpl; [done |].
  intros [Hc Hp]%orb_false_iff. rewrite Hc. by rewrite (IH Hp).
Qed.

Lemma split_dot_app (p q : string) :
  has_dot p = false → split_dot (p +:+ "." +:+ q) = p :: split_dot q.
Proof.
  induction p as [|c p IH]; simpl; [done |].
  intros [Hc Hp]%orb_false_iff. rewrite Hc. by rewrite (IH Hp).
Qed.

(** X16. [_dig] with a path that has no full stop is the lookup of the key:
    the stored value, a stored [None] included, and the default only when the
    key is missing.  With a path [p.q] it descends: when the value under [p]
    is a dictionary the result is [_dig] of that dictionary with [q], and the
    default when [p] is missing or its value is no dictionary. *)
Theorem dig_follows_the_path (data : gmap string pyval) (p : string)
    (dflt : pyval) :
  has_dot p = false →
  _dig data p dflt = default dflt (data !! p)
  ∧ ∀ q, _dig data (p +:+ "." +:+ q) dflt
         = match data !! p with
           | Some (PDict inner) => _dig inner q dflt
           | _ => dflt
           end.
Proof.
  intros Hp. unfold _dig. split.
  - rewrite (split_dot_dotless p Hp). simpl. by destruct (data !! p).
  - intros q. rewrite (split_dot_app p q Hp). simpl.
    destruct (data !! p) as [v|]; [| done].
    pose proof (split_dot_not_nil q) as Hq.
    destruct (split_dot q) as [|seg segs]; [done |].
    by destruct v.
Qed.

Lemma dig_dotless (data : gmap string pyval) (p : string) (dflt : pyval) :
  has_dot p = false → _dig data p dflt = default dflt (data !! p).
Proof.
  intros Hp. unfold _dig. rewrite (split_dot_dotless p Hp). simpl.
  by destruct (data !! p).
Qed.

Section SensorProperties.
Context {DT : Type} (strptime : string → option DT).

(** X17. When the key of a sensor is missing from the snapshot, as it is for
    every sensor after a failed status request, the status sensor shows
    [offline], the motion sensor [none], the upgrade sensor [no], and every
    other sensor of [SENSORS] shows [None]. *)
Theorem sensors_on_missing_key
    (cfg : string * string * option SensorDeviceClass * option string
           * option string * option (pyval → pyval))
    (coordinator_data : option (gmap string pyval)) :
  cfg ∈ SENSORS →
  data_or_empty coordinator_data !! cfg.1.1.1.1.1 = None →
  native_value strptime (Hp7Sensor_init cfg) coordinator_data
  = NVal (shown_when_missing cfg.1.1.1.1.1).
Proof.
  intros Hin. pattern cfg. revert cfg Hin. apply Forall_forall.
  repeat constructor; simpl; intros Hnone; unfold native_value; simpl;
    (rewrite dig_dotless by reflexivity); rewrite Hnone; reflexivity.
Qed.

(** X18. On every snapshot the normaliser makes, every sensor of [SENSORS]
    finds its key: [_dig] returns the stored field and never its default. *)
Theorem sensors_read_snapshot_keys
    (cfg : string * string * option SensorDeviceClass * option string
           * option string * option (pyval → pyval))
    (cam_status : pyval) (snap : gmap string pyval) (dflt : pyval) :
  cfg ∈ SENSORS →
  normalize_status cam_status = Ok snap →
  ∃ v, snap !! _path (Hp7Sensor_init cfg) = Some v
       ∧ _dig snap (_path (Hp7Sensor_init cfg)) dflt = v.
Proof.
  intros Hin Hnorm. apply normalize_status_keys in Hnorm.
  pattern cfg. revert cfg Hin. apply Forall_forall.
  repeat constructor; simpl;
    (rewrite dig_dotless by reflexivity);
    match goal with
    | |- ∃ v, snap !! ?k = Some v ∧ _ =>
        assert (is_Some (snap !! k)) as [v Hv]
          by (apply elem_of_dom; rewrite Hnorm;
              apply (bool_decide_unpack _); vm_compute; exact I);
        exists v; by rewrite Hv
    end.
Qed.

End SensorProperties.

Lemma float_one_is_not_zero (f : spec_float) :
  float_eq_int f 1 = true → float_eq_int f 0 = false.
Proof.
  destruct f as [sg|sg| |sg m e]; simpl; try done.
  destruct (0 <=? e) eqn:He; intros H; apply Z.eqb_eq in H; apply Z.eqb_neq.
  - apply Z.leb_le in He. destruct sg; nia.
  - destruct sg; lia.
Qed.

(** X19. The motion sensor of [sensor.py] and the boolean coercion of
    [binary_sensor.py] agree in one direction: a value the motion sensor
    shows as [detected] is a value [_to_bool] takes for true. *)
Theorem detected_motion_is_true (v : pyval) :
  motion_transform v = PStr "detected" → _to_bool v = true.
Proof.
  unfold motion_transform, py_in.
  destruct v as [|b|z|f|s|l|d]; try (by vm_compute).
  - by destruct b.
  - cbn. by destruct (Z.eqb_spec z 0) as [->|Hz].
  - cbn -[float_eq_int].
    destruct (float_eq_int f 1) eqn:Hf; cbn -[float_eq_int]; [| done].
    by rewrite (float_one_is_not_zero f Hf).
  - cbn -[_to_bool]. repeat case_bool_decide; simpl; try done; by subst.
Qed.

(** The other direction fails: [_to_bool] takes more values for true than the
    motion sensor shows as detected. *)
Example true_motion_not_detected :
  map (fun v => (_to_bool v, motion_transform v))
    [PInt 2; PStr "yes"; PStr " 1 "]
  = [(true, PStr "none"); (true, PStr "none"); (true, PStr "none")].
Proof. vm_compute. reflexivity. Qed.

(** ** The snapshot camera *)

Section CameraProperties.
Context {W : Type} (http_get : Request → W → result Response * W).

(** X20. The camera returns an image only when the snapshot holds a
    non-empty picture address, the API object holds a non-empty token, the
    one request to that address was answered with status 200 and the body
    could be read; the image is that body. *)
Theorem camera_image_needs_ok_response
    (coordinator_data : option (gmap string pyval)) (api : Hp7Api)
    (w w' : W) (image : string) (requests : list Request) :
  async_camera_image http_get coordinator_data api w
  = (Some image, requests, w') →
  py_truthy (dict_get (data_or_empty coordinator_data) "last_alarm_pic") = true
  ∧ token_falsy (_token api) = false
  ∧ ∃ request resp,
      requests = [request]
      ∧ req_url request
        = dict_get (data_or_empty coordinator_data) "last_alarm_pic"
      ∧ http_get request w = (Ok resp, w')
      ∧ resp_status resp = 200
      ∧ resp_read resp = Ok image.
Proof.
  unfold async_camera_image, Hp7Api_token.
  destruct (py_truthy (dict_get _ "last_alarm_pic")); simpl; [| discriminate].
  destruct (_token api) as [tok|]; [| discriminate]. simpl.
  destruct (bool_decide (tok = ∅)) eqn:Htok; [discriminate |].
  set (request := mkRequest _ _ _).
  destruct (http_get request w) as [[resp|e] w1] eqn:Hget; [| discriminate].
  destruct (Z.eqb_spec (resp_status resp) 200) as [Hst|]; [| discriminate].
  destruct (resp_read resp) as [body|e] eqn:Hread; [| discriminate].
  intros [= <- <- <-]. do 2 (split; [done |]).
  exists request, resp. by repeat split.
Qed.

(** X21. The camera makes no request at all when the snapshot has no picture
    address or the API object has no token.  Otherwise it makes exactly one
    request, to the picture address, with a timeout of fifteen seconds and the
    [User-Agent] header, and with an [Authorization] header exactly when the
    token holds a non-empty [access_token]. *)
Theorem camera_requests (coordinator_data : option (gmap string pyval))
    (api : Hp7Api) (w : W) :
  let url := dict_get (data_or_empty coordinator_data) "last_alarm_pic" in
  let run := async_camera_image http_get coordinator_data api w in
  (py_truthy url = false ∨ token_falsy (_token api) = true →
   run = (None, [], w))
  ∧ (py_truthy url = true → ∀ tok, _token api = Some tok → tok ≠ ∅ →
     ∃ request,
       run.1.2 = [request]
       ∧ req_url request = url
       ∧ req_timeout request = 15
       ∧ req_headers request !! "User-Agent"%string = Some (HText "EZVIZ/5.0")
       ∧ req_headers request !! "Authorization"%string
         = (if py_truthy (dict_get tok "access_token")
            then Some (HBearer (dict_get tok "access_token")) else None)
       ∧ dom (req_headers request) ⊆ {["User-Agent"; "Authorization"]}%string).
Proof.
  intros url run. unfold run, async_camera_image, Hp7Api_token. fold url.
  split.
  - intros [-> | Htok]; simpl; [done |].
    destruct (py_truthy url); simpl; [| done].
    destruct (_token api) as [tok|]; [| done]. simpl in Htok.
    by rewrite Htok.
  - intros -> tok -> Hne. simpl.
    rewrite bool_decide_eq_false_2 by done.
    set (request := mkRequest _ _ _). exists request.
    split.
    { by destruct (http_get request w) as [[resp|e] w1];
        [destruct (resp_status resp =? 200); [destruct (resp_read resp) |] |]. }
    unfold request; simpl.
    destruct (py_truthy (dict_get tok "access_token")); simpl.
    + repeat split; try done; set_solver.
    + repeat split; try done; set_solver.
Qed.

End CameraProperties.

(** ** Unique ids *)

Lemma unique_id_prefix (serial : string) (api : Hp7Api) :
  entity_unique_ids serial api
  = map (fun suffix => DOMAIN +:+ "_" +:+ serial +:+ suffix)
      (map (fun e => "_binary_" +:+ e.1.1) SIMPLE_MAP
       ++ map (fun e => "_alarm_" +:+ e.1.1.2) ALARM_MAP
       ++ map (fun cfg => "_sensor_" +:+ replace_dot (_path (Hp7Sensor_init cfg)))
            SENSORS
       ++ map (fun action => "_" +:+ action) (button_async_setup_entry api)
       ++ ["_last_snapshot"%string]).
Proof.
  unfold entity_unique_ids. rewrite !map_app, !map_map. reflexivity.
Qed.

(** X22. For every serial, the unique ids of the entities the four platforms
    add for the device, the binary sensor, the five alarm sensors, the twelve
    sensors, the buttons and the camera, are pairwise different. *)
Theorem unique_ids_are_unique (serial : string) (api : Hp7Api) :
  NoDup (entity_unique_ids serial api).
Proof.
  rewrite unique_id_prefix. apply NoDup_fmap_2.
  - intros x y H.
    by do 3 apply (inj (String.app _)) in H.
  - unfold button_async_setup_entry.
    destruct (supports_gate api), (supports_door api);
      apply (bool_decide_unpack _); vm_compute; exact I.
Qed.

(** ** The configuration flow *)

Section FlowProperties.
Context {W : Type} (svc : DeviceService W).
Context (get_all_device_infos : EzvizClient → M W pyval).

Lemma ensure_client_error_class (st st' : St W) (e : exc) :
  ensure_client svc st = (Raise e, st') → e = RuntimeError.
Proof.
  destruct (_client (self st)) as [c|] eqn:Hc.
  { by rewrite (ensure_client_ready svc st c Hc). }
  destruct (svc_new svc (client_of (self st)) (world st)) as [[[]|e1] w1] eqn:Hnew.
  - destruct (token_falsy (_token (self st))) eqn:Htok.
    + destruct (svc_login svc (client_of (self st)) w1) as [r w2] eqn:Hlogin.
      rewrite (ensure_client_login svc st w1 w2 r Hc Htok Hnew Hlogin).
      destruct r; simpl; [discriminate |]. by intros [= <- _].
    + by rewrite (ensure_client_cached_token svc st w1 Hc Htok Hnew).
  - rewrite (ensure_client_new_fails svc st e1 w1 Hc Hnew). by intros [= <- _].
Qed.

Lemma list_devices_error_class (st st' : St W) (e : exc) :
  list_devices svc get_all_device_infos st = (Raise e, st') → e ≠ ValueError.
Proof.
  unfold list_devices, bind.
  destruct (ensure_client svc st) as [[u|e1] st1] eqn:Hens.
  - unfold get_self; simpl. destruct (_client (self st1)) as [c|]; [| discriminate].
    unfold try_except, bind, ret; simpl.
    destruct (get_all_device_infos c st1) as [[devices|e2] st2]; simpl.
    + destruct devices as [| | | | | |ds]; try by intros [= <- _].
      destruct (collect_devices_spec ds) as [[_ ->]|[_ ->]];
        [discriminate | by intros [= <- _]].
    + destruct (key_attribute_value_error e2) eqn:Hcatch; simpl;
        [discriminate |].
      intros [= <- _]. by destruct e2.
  - intros [= <- _]. by rewrite (ensure_client_error_class st st1 e1 Hens).
Qed.

Lemma user_step_connect_error_class (user_input : UserInput) (st st' : St W)
    (e : exc) :
  user_step_connect svc get_all_device_infos user_input st = (Raise e, st') →
  e ≠ ValueError.
Proof.
  unfold user_step_connect, login, bind.
  destruct (ensure_client svc st) as [[u|e1] st1] eqn:Hens; simpl.
  - unfold get_self; simpl.
    destruct (list_devices svc get_all_device_infos st1) as [[ds|e2] st2] eqn:Hl;
      simpl; [discriminate |].
    intros [= <- _]. by apply (list_devices_error_class st1 st2).
  - intros [= <- _]. by rewrite (ensure_client_error_class st st1 e1 Hens).
Qed.

(** X23. The first step of the configuration flow never shows the
    authentication error: a login that fails leaves [ensure_client] as
    [RuntimeError], which the step takes for a connection problem, so wrong
    credentials are reported as [cannot_connect]. *)
Theorem user_step_never_reports_auth (user_input : UserInput) (w : W) :
  (async_step_user svc get_all_device_infos user_input w).1
  ≠ Ok (FormUser "auth")
  ∧ ∀ api st' e,
      Hp7Api_init (input_username user_input)
        (Some (input_password user_input)) (input_region user_input) None
      = Ok api →
      ensure_client svc (mkSt api w []) = (Raise e, st') →
      async_step_user svc get_all_device_infos user_input w
      = (Ok (FormUser "cannot_connect"), world st').
Proof.
  unfold async_step_user.
  destruct (Hp7Api_init _ _ _ _) as [api|e0] eqn:Hinit.
  - split.
    + destruct (user_step_connect _ _ _ _) as [[[creds devices]|e] st1] eqn:Hrun.
      * destruct (build_options _ _) as [[[|o os] u]|e]; simpl; discriminate.
      * apply user_step_connect_error_class in Hrun.
        destruct e; simpl; try discriminate. done.
    + intros api' st' e [= <-] Hens.
      pose proof (ensure_client_error_class _ _ _ Hens) as ->.
      unfold user_step_connect, login, bind. by rewrite Hens.
  - split; [| discriminate].
    unfold Hp7Api_init in Hinit.
    destruct (py_getitem REGION_URLS "eu") as [eu|e1] eqn:Hget; simpl in Hinit;
      [discriminate |].
    injection Hinit as <-. unfold py_getitem in Hget.
    destruct (REGION_URLS !! "eu"%string); [discriminate |].
    by injection Hget as <-.
Qed.

End FlowProperties.

Lemma long_serial_not_empty (k : string) :
  _looks_like_long_serial k = true → py_truthy (PStr k) = true.
Proof. by destruct k. Qed.

Lemma option_step_listed (pre : list (string * gmap string pyval))
    (k : string) (info : gmap string pyval) :
  k ∉ pre.*1 →
  listed_with_text info →
  option_step
    (offered_option <$> List.filter (fun it => _looks_like_long_serial it.1) pre,
     (fun it => (PStr it.1, PStr it.1))
       <$> List.filter (fun it => _looks_like_long_serial it.1) pre)
    (k, info)
  = Ok (offered_option
          <$> List.filter (fun it => _looks_like_long_serial it.1)
                (pre ++ [(k, info)]),
        (fun it => (PStr it.1, PStr it.1))
          <$> List.filter (fun it => _looks_like_long_serial it.1)
                (pre ++ [(k, info)])).
Proof.
  intros Hk (text & Htext & ->).
  assert (py_truthy (PStr text) = true) as Htruthy.
  { simpl. by rewrite bool_decide_eq_false_2. }
  set (info := {[ "device_name"%string := PStr text ]} : gmap string pyval).
  assert (∀ key, key ≠ "device_name"%string → dict_get info key = PNone)
    as Hmiss.
  { intros key Hkey. unfold dict_get, info. by rewrite lookup_singleton_ne. }
  assert (dict_get info "device_name" = PStr text) as Hname.
  { unfold dict_get, info. by rewrite lookup_singleton_eq. }
  unfold option_step.
  rewrite (Hmiss "name"%string), (Hmiss "device_id"%string),
    (Hmiss "uuid"%string), (Hmiss "serial_long"%string),
    (Hmiss "full_serial"%string), Hname by done.
  replace (py_or (py_or PNone (PStr text)) (PStr "Device")) with (PStr text)
    by (change (py_or PNone (PStr text)) with (PStr text);
        unfold py_or; by rewrite Htruthy).
  replace (py_or (py_or (py_or (py_or PNone PNone) PNone) PNone) PNone)
    with PNone by reflexivity.
  replace (py_or (py_or PNone PNone) PNone) with PNone by reflexivity.
  cbn [rbind]. rewrite !List.filter_app. cbn [List.filter fst].
  destruct (_looks_like_long_serial k) eqn:Hlong.
  - rewrite (long_serial_not_empty k Hlong).
    replace (py_or PNone (PStr k)) with (PStr k) by reflexivity.
    cbn [negb hashable rbind].
    assert (∀ (A : Type) (key : string * gmap string pyval → pyval * A)
              (sel : pyval * A → pyval) (l : list (string * gmap string pyval)),
              k ∉ l.*1 →
              (∀ it, sel (key it) = PStr it.1) →
              existsb (fun kv => py_eq (sel kv) (PStr k)) (key <$> l) = false)
      as Hfresh.
    { intros A key sel l Hl Hsel.
      induction l as [|it l IH]; simpl; [done |].
      apply not_elem_of_cons in Hl as [Hne Hl]. rewrite Hsel. simpl.
      rewrite bool_decide_eq_false_2 by done. by apply IH. }
    rewrite (Hfresh Label offered_option fst); [| | done].
    + cbn [orb].
      rewrite (Hfresh pyval (fun it => (PStr it.1, PStr it.1)) snd); [| | done].
      * rewrite !fmap_app. cbn [fmap list_fmap]. unfold offered_option at 3.
        cbn [fst snd]. by rewrite Hname.
      * intros Hin. apply Hk.
        apply list_elem_of_fmap in Hin as (it & -> & Hit).
        apply list_elem_of_fmap. exists it. split; [done |].
        apply list_elem_of_In in Hit. apply List.filter_In in Hit as [Hit _].
        by apply list_elem_of_In.
    + intros Hin. apply Hk.
      apply list_elem_of_fmap in Hin as (it & -> & Hit).
      apply list_elem_of_fmap. exists it. split; [done |].
      apply list_elem_of_In in Hit. apply List.filter_In in Hit as [Hit _].
      by apply list_elem_of_In.
  - replace (py_or PNone PNone) with PNone by reflexivity.
    cbn [py_truthy negb]. by rewrite !app_nil_r.
Qed.

(** X24. From devices as [list_devices] returns them, the flow offers exactly
    the devices whose serial holds a dash or has twelve characters or more,
    each once, in the order they come, with the serial as option key and as
    unique id and the stripped name in the label; a device with a shorter
    serial is never offered. *)
Theorem only_long_serials_are_offered
    (items : list (string * gmap string pyval)) :
  NoDup items.*1 →
  Forall (fun it => listed_with_text it.2) items →
  let long := List.filter (fun it => _looks_like_long_serial it.1) items in
  build_options ([], []) items
  = Ok (offered_option <$> long, (fun it => (PStr it.1, PStr it.1)) <$> long)
  ∧ ∀ it, it ∈ items → _looks_like_long_serial it.1 = false →
          PStr it.1 ∉ (offered_option <$> long).*1.
Proof.
  intros Hnd Hall long. split.
  - assert (∀ pre,
              NoDup (pre ++ items).*1 →
              build_options
                (offered_option
                   <$> List.filter (fun it => _looks_like_long_serial it.1) pre,
                 (fun it => (PStr it.1, PStr it.1))
                   <$> List.filter (fun it => _looks_like_long_serial it.1) pre)
                items
              = Ok (offered_option
                      <$> List.filter (fun it => _looks_like_long_serial it.1)
                            (pre ++ items),
                    (fun it => (PStr it.1, PStr it.1))
                      <$> List.filter (fun it => _looks_like_long_serial it.1)
                            (pre ++ items))) as Hgen.
    { clear Hnd long. induction Hall as [|[k info] rest Hinfo _ IH];
        intros pre Hnd; cbn [build_options].
      - by rewrite app_nil_r.
      - rewrite option_step_listed; [| | done].
        + cbn [rbind]. rewrite (IH (pre ++ [(k, info)])).
          * by rewrite <- app_assoc.
          * by rewrite <- app_assoc.
        + rewrite fmap_app in Hnd. apply NoDup_app in Hnd as (_ & Hdisj & _).
          intros Hin. apply (Hdisj k Hin). simpl. by left. }
    apply (Hgen []). done.
  - intros it Hit Hshort Hin.
    apply list_elem_of_fmap in Hin as ([key label] & Hkey & Hin).
    apply list_elem_of_fmap in Hin as (it' & [= -> ->] & Hit').
    simpl in Hkey. injection Hkey as Hkey.
    apply list_elem_of_In, List.filter_In in Hit' as [_ Hlong].
    rewrite <- Hkey in Hlong. congruence.
Qed.

(** ** Instances *)

Lemma ensure_client_raises_runtime_error_witness :
  let run := ensure_client refusing_service (mkSt fresh_api tt []) in
  run.1 = Raise RuntimeError
  ∧ _client fresh_api = None
  ∧ _token (self run.2) = None.
Proof.
  destruct (ensure_client_raises_runtime_error refusing_service
              (mkSt fresh_api tt [])
              (ensure_client refusing_service (mkSt fresh_api tt [])).2
              RuntimeError eq_refl) as (_ & Hc & Ht & _).
  split; [reflexivity |]. split; [exact Hc | exact Ht].
Defined.

Lemma refused_login_is_not_retried_witness :
  ∃ st1,
    ensure_client refusing_service (mkSt fresh_api tt []) = (Raise RuntimeError, st1)
    ∧ _client (self st1) = Some a_client
    ∧ ensure_client willing_after_refusal (mkSt (self st1) tt [])
      = (Ok tt, mkSt (self st1) tt []).
Proof.
  destruct (refused_login_is_not_retried refusing_service
              (mkSt fresh_api tt []) tt tt (OtherError "PyEzvizError")
              eq_refl eq_refl eq_refl eq_refl)
    as (st1 & Hrun & Hc & _ & _ & _).
  exists st1. split; [exact Hrun |]. split; [exact Hc |].
  injection Hrun as <-. reflexivity.
Defined.

Lemma cached_token_skips_login_witness :
  ∃ st1,
    ensure_client refusing_service (mkSt cached_api tt []) = (Ok tt, st1)
    ∧ _token (self st1) = Some a_token
    ∧ calls st1 = [CallNew cached_client].
Proof.
  destruct (cached_token_skips_login refusing_service (mkSt cached_api tt []) tt
              eq_refl eq_refl eq_refl) as (st1 & Hrun & _ & Ht & Hcalls).
  exists st1. split; [exact Hrun |]. split; [exact Ht | exact Hcalls].
Defined.

Lemma capabilities_never_cleared_witness :
  capabilities_on
    (self (run_methods flaky_service (mkSt fresh_api 1%nat [])
             [MLogin; MGetStatus "HP7-0001"; MUnlockDoor "HP7-0001"; MClose;
              MDetectCapabilities "HP7-0001"; MUnlockGate "HP7-0001"])).
Proof.
  apply (capabilities_never_cleared flaky_service (mkSt fresh_api 1%nat [])).
  split; reflexivity.
Defined.

Lemma setup_adds_both_buttons_witness :
  ∃ api coordinator w',
    async_setup_entry flaky_service an_entry 1%nat = (Ok (api, coordinator), w')
    ∧ button_async_setup_entry api = ["unlock_gate"; "unlock_door"]%string.
Proof.
  destruct (async_setup_entry flaky_service an_entry 1%nat)
    as [[[api coordinator]|e] w'] eqn:H.
  - exists api, coordinator, w'. split; [reflexivity |].
    apply (setup_adds_both_buttons flaky_service an_entry 1%nat w' api
             coordinator H).
  - vm_compute in H. discriminate H.
Defined.

Lemma press_after_setup_never_raises_witness :
  ∃ api coordinator records st',
    async_setup_entry lock_one_service an_entry tt = (Ok (api, coordinator), tt)
    ∧ async_press lock_one_service "unlock_door" "HP7-0001" (mkSt api tt [])
      = (records, (Ok tt, st'))
    ∧ self st' = api
    ∧ head records = Some (log_pressed "unlock_door" "HP7-0001").
Proof.
  destruct (async_setup_entry lock_one_service an_entry tt)
    as [[[api coordinator]|e] []] eqn:H.
  - destruct (press_after_setup_never_raises lock_one_service an_entry tt tt
                api coordinator "unlock_door" "HP7-0001" tt [] H)
      as (records & st' & Hrun & Hself & Hhead & _).
    exists api, coordinator, records, st'.
    split; [reflexivity |]. split; [exact Hrun |].
    split; [exact Hself | exact Hhead].
  - vm_compute in H. discriminate H.
Defined.

(** A press of a button of an unknown action: the debug record and nothing
    else, no call.  A press whose unlock succeeds: the debug record, then the
    record of the success.  A press that raises, here with no session and a
    refused login: the debug record is logged all the same. *)
Example press_of_unknown_action :
  async_press lock_one_service "ring" "HP7-0001" (mkSt logged_in_api tt [])
  = ([log_pressed "ring" "HP7-0001"], (Ok tt, mkSt logged_in_api tt [])).
Proof. vm_compute. reflexivity. Qed.

Example press_logs_success :
  (async_press lock_one_service "unlock_door" "HP7-0001"
     (mkSt logged_in_api tt [])).1
  = [log_pressed "unlock_door" "HP7-0001"; log_successful "Unlock Door"].
Proof. vm_compute. reflexivity. Qed.

Example press_without_session_raises :
  ∃ st',
    async_press refusing_service "unlock_door" "HP7-0001" (mkSt fresh_api tt [])
    = ([log_pressed "unlock_door" "HP7-0001"], (Raise RuntimeError, st')).
Proof. eexists. vm_compute. reflexivity. Qed.

Lemma setup_raises_only_not_ready_witness :
  (async_setup_entry refusing_service an_entry tt).1
  = Raise ConfigEntryNotReady.
Proof.
  destruct (async_setup_entry refusing_service an_entry tt) as [[ok|e] w] eqn:H.
  - vm_compute in H. discriminate H.
  - simpl. f_equal.
    exact (setup_raises_only_not_ready refusing_service an_entry tt w e H).
Defined.

Lemma get_status_all_or_nothing_witness :
  ∃ snap,
    (get_status flaky_service "HP7-0001" (mkSt logged_in_api 0%nat [])).1
    = Ok snap
    ∧ (snap = ∅ ∨ dom snap = SNAPSHOT_KEYS).
Proof.
  destruct (get_status_all_or_nothing flaky_service "HP7-0001"
              (mkSt logged_in_api 0%nat []) a_client eq_refl)
    as (snap & Hrun & Hshape).
  exists snap. rewrite Hrun. split; [reflexivity | exact Hshape].
Defined.

Lemma list_devices_names_witness :
  ∃ listed,
    list_devices willing_after_refusal (fixed_listing (Ok (PDict two_devices)))
      (mkSt logged_in_api tt []) = (Ok listed, mkSt logged_in_api tt [])
    ∧ listed !! "BC1234567"%string
      = Some {[ "device_name"%string := PStr "Front door" ]}
    ∧ listed !! "HP7-0001-LONG"%string
      = Some {[ "device_name"%string := PStr "Device" ]}.
Proof.
  destruct (list_devices_names willing_after_refusal
              (fixed_listing (Ok (PDict two_devices)))
              (mkSt logged_in_api tt []) (mkSt logged_in_api tt [])
              a_client two_devices eq_refl eq_refl)
    as (listed & Hrun & _ & Hnames & _).
  { apply (bool_decide_unpack _). vm_compute. exact I. }
  exists listed. split; [exact Hrun |]. split.
  - rewrite (Hnames "BC1234567"%string {[ "name"%string := PStr "Front door" ]});
      [reflexivity | vm_compute; reflexivity].
  - rewrite (Hnames "HP7-0001-LONG"%string {[ "deviceName"%string := PStr "" ]});
      [reflexivity | vm_compute; reflexivity].
Defined.

Lemma list_devices_on_error_witness :
  list_devices willing_after_refusal (fixed_listing (Raise KeyError))
    (mkSt logged_in_api tt []) = (Ok ∅, mkSt logged_in_api tt [])
  ∧ list_devices willing_after_refusal
      (fixed_listing (Raise (OtherError "ConnectionError")))
      (mkSt logged_in_api tt [])
    = (Raise (OtherError "ConnectionError"), mkSt logged_in_api tt []).
Proof.
  split.
  - apply (list_devices_on_error willing_after_refusal
             (fixed_listing (Raise KeyError)) (mkSt logged_in_api tt [])
             (mkSt logged_in_api tt []) a_client KeyError eq_refl eq_refl).
  - apply (list_devices_on_error willing_after_refusal
             (fixed_listing (Raise (OtherError "ConnectionError")))
             (mkSt logged_in_api tt []) (mkSt logged_in_api tt []) a_client
             (OtherError "ConnectionError") eq_refl eq_refl).
Defined.

Lemma list_devices_malformed_witness :
  list_devices willing_after_refusal
    (fixed_listing (Ok (PDict {[ "BC1234567"%string := PNone ]})))
    (mkSt logged_in_api tt [])
  = (Raise AttributeError, mkSt logged_in_api tt []).
Proof.
  apply (list_devices_malformed willing_after_refusal
           (fixed_listing (Ok (PDict {[ "BC1234567"%string := PNone ]})))
           (mkSt logged_in_api tt []) (mkSt logged_in_api tt []) a_client
           (PDict {[ "BC1234567"%string := PNone ]}) eq_refl eq_refl).
  right. exists {[ "BC1234567"%string := PNone ]}, "BC1234567"%string, PNone.
  split; [reflexivity |]. split; [vm_compute; reflexivity | reflexivity].
Defined.

Lemma snapshot_without_alarm_is_ignored_witness :
  deliver doorbell_sensor
    [CoordinatorUpdate 0 (ring_at ten_o_clock);
     CoordinatorUpdate 2000000 (Some ∅);
     CoordinatorUpdate 4000000 (ring_at ten_o_clock)]
  = deliver doorbell_sensor
      [CoordinatorUpdate 0 (ring_at ten_o_clock);
       CoordinatorUpdate 4000000 (ring_at ten_o_clock)].
Proof.
  apply (snapshot_without_alarm_is_ignored doorbell_sensor
           [CoordinatorUpdate 0 (ring_at ten_o_clock)]
           [CoordinatorUpdate 4000000 (ring_at ten_o_clock)]
           2000000 (Some ∅)).
  left. reflexivity.
Defined.

Lemma alarm_condition_on_raw_status_witness :
  ∃ snap,
    normalize_status (PDict ringing_status) = Ok snap
    ∧ alarm_condition doorbell_sensor (Some snap) = true.
Proof.
  destruct (normalize_status (PDict ringing_status)) as [snap|e] eqn:H.
  - exists snap. split; [reflexivity |].
    rewrite (alarm_condition_on_raw_status doorbell_sensor ringing_status snap H).
    vm_compute. reflexivity.
  - vm_compute in H. discriminate H.
Defined.

Lemma dig_follows_the_path_witness :
  _dig {[ "wifi"%string := PDict {[ "signal"%string := PInt 70 ]} ]}
    "wifi.signal" PNone = PInt 70
  ∧ _dig {[ "wifi"%string := PStr "down" ]} "wifi.signal" (PInt 0) = PInt 0
  ∧ _dig {[ "ssid"%string := PNone ]} "ssid" (PStr "?") = PNone.
Proof.
  split; [| split].
  - rewrite (proj2 (dig_follows_the_path
                      {[ "wifi"%string := PDict {[ "signal"%string := PInt 70 ]} ]}
                      "wifi" PNone eq_refl) "signal"%string).
    vm_compute. reflexivity.
  - rewrite (proj2 (dig_follows_the_path {[ "wifi"%string := PStr "down" ]}
                      "wifi" (PInt 0) eq_refl) "signal"%string).
    vm_compute. reflexivity.
  - rewrite (proj1 (dig_follows_the_path {[ "ssid"%string := PNone ]}
                      "ssid" (PStr "?") eq_refl)).
    vm_compute. reflexivity.
Defined.

Lemma sensors_on_missing_key_witness :
  native_value one_timestamp
    (Hp7Sensor_init ("status", "status", None, None, Some "mdi:power",
                     Some status_transform)%string) (Some ∅)
  = NVal (PStr "offline").
Proof.
  apply (sensors_on_missing_key one_timestamp
           ("status", "status", None, None, Some "mdi:power",
            Some status_transform)%string (Some ∅)).
  - apply list_elem_of_In. simpl. tauto.
  - reflexivity.
Defined.

Lemma sensors_read_snapshot_keys_witness :
  ∃ snap v,
    normalize_status (PDict sparse_status) = Ok snap
    ∧ snap !! "motion"%string = Some v
    ∧ _dig snap "motion" (PStr "?") = v.
Proof.
  destruct (normalize_status (PDict sparse_status)) as [snap|e] eqn:H.
  - destruct (sensors_read_snapshot_keys
                ("motion", "motion", None, None, Some "mdi:run",
                 Some motion_transform)%string
                (PDict sparse_status) snap (PStr "?"))
      as (v & Hv & Hdig); [apply list_elem_of_In; simpl; tauto | exact H |].
    exists snap, v. split; [reflexivity |]. split; [exact Hv | exact Hdig].
  - vm_compute in H. discriminate H.
Defined.

Lemma detected_motion_is_true_witness :
  motion_transform (PStr "true") = PStr "detected"
  ∧ _to_bool (PStr "true") = true.
Proof.
  split; [reflexivity |].
  apply (detected_motion_is_true (PStr "true")). reflexivity.
Defined.

Lemma camera_image_needs_ok_response_witness :
  async_camera_image
    (fixed_server (Ok {| resp_status := 200; resp_read := Ok "JPEG"%string |}))
    picture_snapshot bearer_api tt
  = (Some "JPEG"%string,
     [ {| req_url := PStr "https://example.invalid/a.jpg";
          req_headers := {[ "User-Agent"%string := HText "EZVIZ/5.0";
                            "Authorization"%string := HBearer (PStr "abc") ]};
          req_timeout := 15 |} ], tt)
  ∧ token_falsy (_token bearer_api) = false.
Proof.
  assert (async_camera_image
            (fixed_server (Ok {| resp_status := 200;
                                 resp_read := Ok "JPEG"%string |}))
            picture_snapshot bearer_api tt
          = (Some "JPEG"%string,
             [ {| req_url := PStr "https://example.invalid/a.jpg";
                  req_headers :=
                    {[ "User-Agent"%string := HText "EZVIZ/5.0";
                       "Authorization"%string := HBearer (PStr "abc") ]};
                  req_timeout := 15 |} ], tt)) as Hrun
    by (vm_compute; reflexivity).
  split; [exact Hrun |].
  exact (proj1 (proj2 (camera_image_needs_ok_response _ _ _ _ _ _ _ Hrun))).
Defined.

Lemma camera_requests_witness :
  async_camera_image
    (fixed_server (Ok {| resp_status := 200; resp_read := Ok "JPEG"%string |}))
    picture_snapshot fresh_api tt
  = (None, [], tt).
Proof.
  apply (proj1 (camera_requests
                  (fixed_server (Ok {| resp_status := 200;
                                       resp_read := Ok "JPEG"%string |}))
                  picture_snapshot fresh_api tt)).
  right. reflexivity.
Defined.

Lemma user_step_never_reports_auth_witness :
  async_step_user refusing_service (fixed_listing (Ok (PDict two_devices)))
    typed_input tt
  = (Ok (FormUser "cannot_connect"), tt).
Proof.
  apply (proj2 (user_step_never_reports_auth refusing_service
                  (fixed_listing (Ok (PDict two_devices))) typed_input tt)
           fresh_api
           (ensure_client refusing_service (mkSt fresh_api tt [])).2
           RuntimeError eq_refl eq_refl).
Defined.

Lemma only_long_serials_are_offered_witness :
  build_options ([], []) listed_items
  = Ok ([(PStr "HP7-0001-LONG",
          {| label_name := "Device"; label_serial := PStr "HP7-0001-LONG" |})],
        [(PStr "HP7-0001-LONG", PStr "HP7-0001-LONG")]).
Proof.
  assert (NoDup listed_items.*1) as Hnd
    by (apply (bool_decide_unpack _); vm_compute; exact I).
  assert (Forall (fun it => listed_with_text it.2) listed_items) as Hall.
  { repeat constructor; simpl; eexists; (split; [| reflexivity]); done. }
  rewrite (proj1 (only_long_serials_are_offered listed_items Hnd Hall)).
  vm_compute. reflexivity.
Defined.

(** The flow on the two devices of the example: the one with the short
    serial is not offered. *)
Example flow_offers_long_serial_only :
  async_step_user willing_after_refusal
    (fixed_listing (Ok (PDict two_devices))) typed_input tt
  = (Ok (FormPickSerial
           {| input_username := "user"; input_password := "secret";
              input_region := "eu"; input_token := Some a_token |}
           [(PStr "HP7-0001-LONG",
             {| label_name := "Device";
                label_serial := PStr "HP7-0001-LONG" |})]
           [(PStr "HP7-0001-LONG", PStr "HP7-0001-LONG")]), tt).
Proof. vm_compute. reflexivity. Qed.
